(** * dt_index_deploy: the digital-transformation-index dashboard

    A shallow embedding of [dt_index_deploy.py], a Streamlit script that
    loads a spreadsheet of firm-year records, filters it by the sidebar
    selections and renders metrics, a histogram, a ranked table and an
    industry bar chart.

    Conventions of the embedding.
    - A Python [str] is the list of its Unicode code points ([pystr]).
    - A pandas DataFrame is the list of its rows in positional order; the
      columns the script reads are the fields of [row].
    - The text columns hold strings and the numeric columns finite
      numbers.  A finite float64 is the rational it denotes ([Q]);
      comparisons, [max], [min] and [int()] are exact on these.  The
      float64 mean that pandas computes is a parameter ([mean]) of the
      development, and [f"{x:.1f}"] is kept symbolic ([OneDecimal]).
    - Everything the script sends to the page is an [element]; a run of the
      script yields the list of elements in rendering order. *)

From Stdlib Require Import Ascii String List Bool ZArith NArith QArith Lia.
From Stdlib Require Import Permutation Sorted.
Import ListNotations.

Local Open Scope Z_scope.

(** ** Python strings *)

Definition pystr := list N.

Fixpoint pystr_eqb (a b : pystr) : bool :=
  match a, b with
  | [], [] => true
  | x :: a', y :: b' => N.eqb x y && pystr_eqb a' b'
  | _, _ => false
  end.

(** [a <= b] on [str]: lexicographic on code points. *)
Fixpoint pystr_leb (a b : pystr) : bool :=
  match a, b with
  | [], _ => true
  | _ :: _, [] => false
  | x :: a', y :: b' =>
      if N.ltb x y then true
      else if N.eqb x y then pystr_leb a' b'
      else false
  end.

(** The literals of the script: '全部', '未知行业', '未知'. *)
Definition ALL_INDUSTRIES : pystr := [20840; 37096]%N.
Definition UNKNOWN_INDUSTRY : pystr := [26410; 30693; 34892; 19994]%N.
Definition UNKNOWN_CODE : pystr := [26410; 30693]%N.

(** ** The table *)

(** One firm-year record.  Columns: 股票代码, 年份, 企业名称, 行业名称,
    行业代码, 数字化转型指数(0-100分), 总词频数. *)
Record row := mkRow {
  col_stock_code : pystr;
  col_year : Z;
  col_company : pystr;
  col_industry_name : pystr;
  col_industry_code : pystr;
  col_index : Q;
  col_total_words : Q
}.

Definition dataframe := list row.

(** ** Sorting

    [sort_values], [sorted] and the key order of [groupby] are modelled by
    one insertion sort over the relevant order.  numpy's default sort
    leaves the relative order of equal keys unspecified; the insertion sort
    fixes one such order and no statement below depends on it. *)

Section Sort.
Context {A : Type}.
Variable leb : A -> A -> bool.

Fixpoint insert_sorted (x : A) (l : list A) : list A :=
  match l with
  | [] => [x]
  | y :: t => if leb x y then x :: y :: t else y :: insert_sorted x t
  end.

Definition sort_by (l : list A) : list A := fold_right insert_sorted [] l.

End Sort.

Definition index_desc (x y : row) : bool := Qle_bool (col_index y) (col_index x).
Definition avg_desc (x y : pystr * Q) : bool := Qle_bool (snd y) (snd x).

(** [Series.unique()]: the distinct values in order of first appearance. *)
Fixpoint unique {A : Type} (eqb : A -> A -> bool) (l : list A) : list A :=
  match l with
  | [] => []
  | x :: t => x :: filter (fun y => negb (eqb x y)) (unique eqb t)
  end.

(** [sorted(df['年份'].unique())] *)
Definition years (df : dataframe) : list Z :=
  sort_by Z.leb (unique Z.eqb (map col_year df)).

(** [df[df['年份'] == y]] *)
Definition year_slice (y : Z) (df : dataframe) : dataframe :=
  filter (fun r => Z.eqb (col_year r) y) df.

(** ** Regular expressions

    [Series.str.contains(pat, case=False)] compiles [pat] with
    [re.IGNORECASE] and keeps the rows where [search] finds a match
    ([regex=True] is the default).  The fragment of [re] modelled here is
    the concatenation of literals, escaped punctuation, [.], [^] and [$];
    [re_compile] returns [None] on a pattern that uses any other special
    character ([* + ? { } [ ] | ( )] or a class escape), where [re] either
    applies richer syntax or raises [re.error]. *)

Inductive atom :=
| Lit (c : N)
| AnyChar
| Bol
| Eol.

(** The special characters of [re]: . ^ $ * + ? { } [ ] \ | ( ) *)
Definition special_chars : list N :=
  [46; 94; 36; 42; 43; 63; 123; 125; 91; 93; 92; 124; 40; 41]%N.

Definition is_special (c : N) : bool := existsb (N.eqb c) special_chars.

(** A search string every character of which stands for itself. *)
Definition no_special (s : pystr) : bool :=
  forallb (fun c => negb (is_special c)) s.

Definition is_ascii_alnum (c : N) : bool :=
  ((48 <=? c) && (c <=? 57) || (65 <=? c) && (c <=? 90)
   || (97 <=? c) && (c <=? 122))%N.

Definition is_ascii (c : N) : bool := (c <? 128)%N.

Fixpoint re_compile (pat : pystr) : option (list atom) :=
  match pat with
  | [] => Some []
  | c :: rest =>
      if N.eqb c 46 then option_map (cons AnyChar) (re_compile rest)
      else if N.eqb c 94 then option_map (cons Bol) (re_compile rest)
      else if N.eqb c 36 then option_map (cons Eol) (re_compile rest)
      else if N.eqb c 92 then
        match rest with
        | e :: rest' =>
            if is_ascii e && negb (is_ascii_alnum e)
            then option_map (cons (Lit e)) (re_compile rest')
            else None
        | [] => None
        end
      else if is_special c then None
      else option_map (cons (Lit c)) (re_compile rest)
  end.

Section Matching.
(** The case folding of [re.IGNORECASE]: two characters match when they
    fold to the same character. *)
Variable lower : N -> N.

Definition ci_eq (c t : N) : bool := N.eqb (lower c) (lower t).

Definition at_eol (text : pystr) : bool :=
  match text with
  | [] => true
  | [c] => N.eqb c 10
  | _ => false
  end.

(** Do the atoms match a prefix of [text]?  [bol] tells whether [text]
    starts at position 0 of the searched string. *)
Fixpoint match_here (bol : bool) (atoms : list atom) (text : pystr) : bool :=
  match atoms with
  | [] => true
  | Lit c :: rest =>
      match text with
      | t :: text' => ci_eq c t && match_here false rest text'
      | [] => false
      end
  | AnyChar :: rest =>
      match text with
      | t :: text' => negb (N.eqb t 10) && match_here false rest text'
      | [] => false
      end
  | Bol :: rest => bol && match_here bol rest text
  | Eol :: rest => at_eol text && match_here bol rest text
  end.

Fixpoint search_from (bol : bool) (atoms : list atom) (text : pystr) : bool :=
  match_here bol atoms text
  || match text with
     | [] => false
     | _ :: text' => search_from false atoms text'
     end.

(** [regex.search(x) is not None] *)
Definition re_search (atoms : list atom) (text : pystr) : bool :=
  search_from true atoms text.

(** [d[d[field].str.contains(pat, case=False)]] *)
Definition filter_contains (field : row -> pystr) (pat : pystr)
    (d : dataframe) : option dataframe :=
  match re_compile pat with
  | None => None
  | Some atoms => Some (filter (fun r => re_search atoms (field r)) d)
  end.

(** What the claim calls a case-insensitive literal substring: some
    position of [text] where the characters of [s] occur one by one, up to
    case. *)
Fixpoint ci_prefix (s text : pystr) : bool :=
  match s, text with
  | [], _ => true
  | _ :: _, [] => false
  | c :: s', t :: text' => ci_eq c t && ci_prefix s' text'
  end.

Fixpoint ci_substring (s text : pystr) : bool :=
  ci_prefix s text
  || match text with
     | [] => false
     | _ :: text' => ci_substring s text'
     end.

End Matching.

(** ** What a run renders *)

Inductive metric_label := CompanyCount | AvgIndex | MaxIndex | MinIndex.

(** A metric shows an integer, or a float formatted by [f"{x:.1f}"]. *)
Inductive metric_value :=
| IntValue (z : Z)
| OneDecimal (x : Q).

Inductive heading := DistributionHeading | RankingHeading | IndustryHeading.

Inductive text_box := CompanyBox | StockCodeBox.

Inductive failure := FileNotFound | LoadFailed | Traceback.

(** The columns of the ranked table after the projection of line 135. *)
Record shown_row := mkShown {
  shown_stock_code : pystr;
  shown_company : pystr;
  shown_industry_name : pystr;
  shown_index : Q;
  shown_total_words : Q
}.

Inductive element :=
| StSuccess (path : string)
| StError (f : failure)
| StTitle
| StMarkdown
| SidebarHeader
| SidebarSelectYear (options : list Z) (index : Z)
| SidebarWarning
| SidebarSelectIndustry (options : list pystr)
| SidebarTextInput (b : text_box)
| StMetric (l : metric_label) (v : metric_value)
| StWarning
| StSubheader (h : heading)
| StPyplot (year : Z) (values : list Q)
| StDataframe (rows : list (nat * shown_row))
| StPlotlyChart (year : Z) (bars : list (pystr * Q))
| StInfo.

Definition is_metric (e : element) : bool :=
  match e with StMetric _ _ => true | _ => false end.

Definition is_chart (e : element) : bool :=
  match e with StPyplot _ _ | StPlotlyChart _ _ => true | _ => false end.

Definition is_bar_chart (e : element) : bool :=
  match e with StPlotlyChart _ _ => true | _ => false end.

Definition is_table (e : element) : bool :=
  match e with StDataframe _ => true | _ => false end.

Definition is_sidebar (e : element) : bool :=
  match e with
  | SidebarHeader | SidebarSelectYear _ _ | SidebarWarning
  | SidebarSelectIndustry _ | SidebarTextInput _ => true
  | _ => false
  end.

(** ** The sidebar selections *)

(** The values the four sidebar widgets return in a run. *)
Record selection := mkSelection {
  selected_year : Z;
  selected_industry : pystr;
  company_name : pystr;
  stock_code : pystr
}.

(** [years.index(y)], from position [i] on. *)
Fixpoint index_from (i : Z) (y : Z) (l : list Z) : option Z :=
  match l with
  | [] => None
  | x :: t => if Z.eqb x y then Some i else index_from (i + 1) y t
  end.

Definition default_year : Z := 2021.

(** [years.index(default_year) if default_year in years else len(years)-1] *)
Definition default_index (ys : list Z) : Z :=
  match index_from 0 default_year ys with
  | Some i => i
  | None => Z.of_nat (length ys) - 1
  end.

(** ** Aggregation *)

Definition qmax (a b : Q) : Q := if Qle_bool a b then b else a.
Definition qmin (a b : Q) : Q := if Qle_bool a b then a else b.

(** [Series.max()] and [Series.min()] of a column with first value [x]. *)
Definition series_max (x : Q) (rest : list Q) : Q := fold_left qmax rest x.
Definition series_min (x : Q) (rest : list Q) : Q := fold_left qmin rest x.

(** [int(x)]: truncation toward zero. *)
Definition py_int (x : Q) : Z := Z.quot (Qnum x) (Zpos (Qden x)).

Definition project (r : row) : shown_row :=
  mkShown (col_stock_code r) (col_company r) (col_industry_name r)
          (col_index r) (col_total_words r).

(** Lines 134-136: sort by index descending, project, [head(20)], then
    insert the rank column [range(1, len(display_df) + 1)]. *)
Definition display_df (view : dataframe) : list (nat * shown_row) :=
  let ranked_df := sort_by index_desc view in
  let top := firstn 20 (map project ranked_df) in
  combine (seq 1 (length top)) top.

(** Lines 90-91: the industry filter, skipped for '全部'. *)
Definition by_industry (industry : pystr) (d : dataframe) : dataframe :=
  if negb (pystr_eqb industry ALL_INDUSTRIES)
  then filter (fun r => pystr_eqb (col_industry_name r) industry) d
  else d.

(** A criterion is absent when the widget holds its sentinel. *)
Definition industry_criterion (industry : pystr) : option pystr :=
  if pystr_eqb industry ALL_INDUSTRIES then None else Some industry.

Definition text_criterion (s : pystr) : option pystr :=
  match s with
  | [] => None
  | _ :: _ => Some s
  end.

Section Dashboard.
Variable lower : N -> N.
(** [Series.mean()] on a float64 column. *)
Variable mean : list Q -> Q.

(** Lines 87-97. *)
Definition filtered_df (df : dataframe) (ui : selection) : option dataframe :=
  let f1 := year_slice (selected_year ui) df in
  let f2 := by_industry (selected_industry ui) f1 in
  match
    match company_name ui with
    | _ :: _ => filter_contains lower col_company (company_name ui) f2
    | [] => Some f2
    end
  with
  | None => None
  | Some f3 =>
      match stock_code ui with
      | _ :: _ => filter_contains lower col_stock_code (stock_code ui) f3
      | [] => Some f3
      end
  end.

(** The filter engine in the words of the specification: the year filter,
    then each of the three other filters if its criterion is given. *)
Definition spec_filter (df : dataframe) (y : Z) (industry company stock : option pystr)
    : option dataframe :=
  let f1 := year_slice y df in
  let f2 :=
    match industry with
    | Some i => filter (fun r => pystr_eqb (col_industry_name r) i) f1
    | None => f1
    end in
  match
    match company with
    | Some s => filter_contains lower col_company s f2
    | None => Some f2
    end
  with
  | None => None
  | Some f3 =>
      match stock with
      | Some s => filter_contains lower col_stock_code s f3
      | None => Some f3
      end
  end.

(** Lines 102-119: the four metric tiles. *)
Definition summary (view : dataframe) : list element :=
  StMetric CompanyCount (IntValue (Z.of_nat (length view)))
  :: match map col_index view with
     | [] => [StWarning]
     | x :: rest =>
         let avg_index := mean (x :: rest) in
         let max_index := series_max x rest in
         let min_index := series_min x rest in
         [StMetric AvgIndex (OneDecimal avg_index);
          StMetric MaxIndex (IntValue (py_int max_index));
          StMetric MinIndex (IntValue (py_int min_index))]
     end.

(** Lines 122-129. *)
Definition histogram (ui : selection) (view : dataframe) : list element :=
  StSubheader DistributionHeading
  :: match view with
     | [] => []
     | _ :: _ => [StPyplot (selected_year ui) (map col_index view)]
     end.

(** Lines 132-137. *)
Definition ranking (view : dataframe) : list element :=
  StSubheader RankingHeading
  :: match view with
     | [] => []
     | _ :: _ => [StDataframe (display_df view)]
     end.

(** [d.groupby('行业名称')[index].mean()]: one entry per distinct industry
    name, keys in ascending order. *)
Definition groupby_mean (d : dataframe) : list (pystr * Q) :=
  map (fun k =>
         (k, mean (map col_index
                    (filter (fun r => pystr_eqb (col_industry_name r) k) d))))
      (sort_by pystr_leb (unique pystr_eqb (map col_industry_name d))).

(** Line 142. *)
Definition industry_avg (year_data : dataframe) : list (pystr * Q) :=
  sort_by avg_desc (groupby_mean year_data).

Definition non_unknown (avg : list (pystr * Q)) : list (pystr * Q) :=
  filter (fun g => negb (pystr_eqb (fst g) UNKNOWN_INDUSTRY)) avg.

(** Lines 140-160. *)
Definition industry_comparison (df : dataframe) (ui : selection) : list element :=
  let year_data := year_slice (selected_year ui) df in
  let avg := industry_avg year_data in
  StSubheader IndustryHeading
  :: if (1 <? length avg)%nat then
       let industry_avg_non_unknown := non_unknown avg in
       if (0 <? length industry_avg_non_unknown)%nat
       then [StPlotlyChart (selected_year ui) (firstn 10 industry_avg_non_unknown)]
       else [StInfo]
     else [].

(** Lines 58-84: title and sidebar. *)
Definition sidebar (df : dataframe) (ui : selection) : list element :=
  [StTitle; StMarkdown; SidebarHeader;
   SidebarSelectYear (years df) (default_index (years df))]
  ++ (if 2021 <? selected_year ui then [SidebarWarning] else [])
  ++ [SidebarSelectIndustry
        (ALL_INDUSTRIES :: sort_by pystr_leb (unique pystr_eqb (map col_industry_name df)));
      SidebarTextInput CompanyBox; SidebarTextInput StockCodeBox].

(** Lines 100-160: what is rendered below the sidebar for a view. *)
Definition report (df : dataframe) (ui : selection) (view : dataframe) : list element :=
  summary view ++ histogram ui view ++ ranking view ++ industry_comparison df ui.

(** The body of [if df is not None:].  [None] when a search box holds a
    pattern outside the modelled fragment of [re]. *)
Definition main_content (df : dataframe) (ui : selection) : option (list element) :=
  match filtered_df df ui with
  | None => None
  | Some view => Some (sidebar df ui ++ report df ui view)
  end.

End Dashboard.

(** ** The loader *)

(** A spreadsheet cell before normalization. *)
Inductive cell :=
| NaN
| Num (x : Q)
| Text (s : pystr).

(** A row as [pd.read_excel] returns it: stock code and year are still to
    be cast, the industry fields may be missing. *)
Record raw_row := mkRaw {
  raw_stock_code : cell;
  raw_year : cell;
  raw_company : pystr;
  raw_industry_name : option pystr;
  raw_industry_code : option pystr;
  raw_index : Q;
  raw_total_words : Q
}.

(** The part of the world [load_data] looks at.  [read_excel] is [None]
    where [pd.read_excel] raises. *)
Record filesystem := mkFs {
  path_exists : string -> bool;
  read_excel : string -> option (list raw_row)
}.

Definition possible_paths : list string :=
  ["合并后的数字化转型指数数据.xlsx";
   "./合并后的数字化转型指数数据.xlsx";
   "/app/合并后的数字化转型指数数据.xlsx"]%string.

Inductive probed :=
| NotFound
| ReadRaised
| Loaded (path : string) (raw : list raw_row).

(** Lines 29-36: the [for ... else] over the candidate paths. *)
Fixpoint probe (fs : filesystem) (paths : list string) : probed :=
  match paths with
  | [] => NotFound
  | path :: rest =>
      if path_exists fs path then
        match read_excel fs path with
        | Some raw => Loaded path raw
        | None => ReadRaised
        end
      else probe fs rest
  end.

Definition fillna (value : pystr) (c : option pystr) : pystr :=
  match c with
  | Some s => s
  | None => value
  end.

Section Script.
Variable lower : N -> N.
Variable mean : list Q -> Q.
(** [astype(str)] and [astype(int)] on one cell; the latter is [None]
    where pandas raises. *)
Variable astype_str : cell -> pystr.
Variable astype_int : cell -> option Z.

(** Lines 39-44 on one row. *)
Definition normalize_row (r : raw_row) : option row :=
  match astype_int (raw_year r) with
  | None => None
  | Some y =>
      Some (mkRow (astype_str (raw_stock_code r)) y (raw_company r)
                  (fillna UNKNOWN_INDUSTRY (raw_industry_name r))
                  (fillna UNKNOWN_CODE (raw_industry_code r))
                  (raw_index r) (raw_total_words r))
  end.

Fixpoint normalize (raw : list raw_row) : option dataframe :=
  match raw with
  | [] => Some []
  | r :: rest =>
      match normalize_row r, normalize rest with
      | Some r', Some rest' => Some (r' :: rest')
      | _, _ => None
      end
  end.

(** [load_data]: the elements it renders and the value it returns. *)
Definition load_data (fs : filesystem) : list element * option dataframe :=
  match probe fs possible_paths with
  | NotFound => ([StError FileNotFound], None)
  | ReadRaised => ([StError LoadFailed; StError Traceback], None)
  | Loaded path raw =>
      match normalize raw with
      | Some df => ([StSuccess path], Some df)
      | None => ([StSuccess path; StError LoadFailed; StError Traceback], None)
      end
  end.

(** [@st.cache_data]: the first call is stored, with the elements it
    rendered, and later calls replay it. *)
Definition cache := option (list element * option dataframe).

Definition cached_load_data (c : cache) (fs : filesystem)
    : cache * (list element * option dataframe) :=
  match c with
  | Some hit => (c, hit)
  | None => let r := load_data fs in (Some r, r)
  end.

(** One run of the script: the cache it leaves and the page it renders. *)
Definition script (c : cache) (fs : filesystem) (ui : selection)
    : cache * option (list element) :=
  let '(c', (messages, df)) := cached_load_data c fs in
  match df with
  | None => (c', Some messages)
  | Some d => (c', option_map (app messages) (main_content lower mean d ui))
  end.

End Script.

(** ** Instances for concrete runs *)

(** Lower-casing on the ASCII letters, identity elsewhere. *)
Definition ascii_lower (c : N) : N :=
  if ((65 <=? c) && (c <=? 90))%N then (c + 32)%N else c.

(** The mean without rounding error. *)
Definition exact_mean (l : list Q) : Q :=
  fold_right Qplus 0%Q l / inject_Z (Z.of_nat (length l)).

Definition cast_str (c : cell) : pystr :=
  match c with
  | Text s => s
  | _ => []
  end.

Definition cast_int (c : cell) : option Z :=
  match c with
  | Num x => Some (py_int x)
  | _ => None
  end.

(** The code points of an ASCII literal. *)
Fixpoint codepoints (s : string) : pystr :=
  match s with
  | EmptyString => []
  | String a t => N_of_ascii a :: codepoints t
  end.

(** A small table: two finance firms and one unclassified firm in 2021,
    one steel firm in 2020, one unclassified firm in 2022, and in 2023 a
    finance firm below an unclassified one. *)
Definition alpha : row :=
  mkRow (codepoints "600001") 2021 (codepoints "Alpha Bank")
        (codepoints "Finance") (codepoints "J66") 80 1200.
Definition beta : row :=
  mkRow (codepoints "600002") 2021 (codepoints "Beta Trust")
        (codepoints "Finance") (codepoints "J69") 90 2100.
Definition gamma : row :=
  mkRow (codepoints "000003") 2021 (codepoints "Gamma Works")
        UNKNOWN_INDUSTRY UNKNOWN_CODE 10 300.
Definition delta : row :=
  mkRow (codepoints "000004") 2020 (codepoints "Delta Steel")
        (codepoints "Steel") (codepoints "C31") 40 800.
Definition epsilon : row :=
  mkRow (codepoints "000005") 2022 (codepoints "Epsilon Labs")
        UNKNOWN_INDUSTRY UNKNOWN_CODE 55 900.

Definition zeta : row :=
  mkRow (codepoints "600006") 2023 (codepoints "Zeta Bank")
        (codepoints "Finance") (codepoints "J66") 20 500.
Definition eta : row :=
  mkRow (codepoints "000007") 2023 (codepoints "Eta Group")
        UNKNOWN_INDUSTRY UNKNOWN_CODE 95 4000.

Definition sample_table : dataframe :=
  [alpha; beta; gamma; delta; epsilon; zeta; eta].

Definition pick (y : Z) (company : string) : selection :=
  mkSelection y ALL_INDUSTRIES (codepoints company) [].

(** A two-row spreadsheet, found in the working directory by one file
    system and under /app by another; a third file system has none of
    the candidate paths. *)
Definition sample_raw : list raw_row :=
  [mkRaw (Num 600001) (Num 2021) (codepoints "Alpha Bank")
         (Some (codepoints "Finance")) (Some (codepoints "J66")) 80 1200;
   mkRaw (Text (codepoints "000003")) (Num 2021) (codepoints "Gamma Works")
         None None 10 300].

Definition fs_cwd : filesystem :=
  mkFs (fun p => String.eqb p "合并后的数字化转型指数数据.xlsx")
       (fun _ => Some sample_raw).

Definition fs_app : filesystem :=
  mkFs (fun p => String.eqb p "/app/合并后的数字化转型指数数据.xlsx")
       (fun _ => Some sample_raw).

Definition fs_bare : filesystem := mkFs (fun _ => false) (fun _ => None).

Definition sample_loaded : dataframe :=
  match normalize cast_str cast_int sample_raw with
  | Some d => d
  | None => []
  end.

(** ** Row predicates of the filter block *)

(** Does a row pass the industry selectbox? *)
Definition industry_matches (industry : pystr) (r : row) : bool :=
  pystr_eqb industry ALL_INDUSTRIES || pystr_eqb (col_industry_name r) industry.

(** Does a field pass a search box?  An empty box lets everything
    through; otherwise the box is searched for as a pattern. *)
Definition box_matches (lower : N -> N) (box text : pystr) : bool :=
  match box with
  | [] => true
  | _ :: _ =>
      match re_compile box with
      | Some atoms => re_search lower atoms text
      | None => false
      end
  end.

(** Can the filter block use what a search box holds? *)
Definition box_compiles (box : pystr) : bool :=
  match box with
  | [] => true
  | _ :: _ =>
      match re_compile box with
      | Some _ => true
      | None => false
      end
  end.

(** The conjunction of the four filters on one row. *)
Definition row_selected (lower : N -> N) (ui : selection) (r : row) : bool :=
  Z.eqb (col_year r) (selected_year ui)
  && industry_matches (selected_industry ui) r
  && box_matches lower (company_name ui) (col_company r)
  && box_matches lower (stock_code ui) (col_stock_code r).

(** * Properties *)

(** ** Sorting *)

Section SortFacts.
Context {A : Type}.
Variable leb : A -> A -> bool.

Lemma insert_sorted_perm (x : A) (l : list A) :
  Permutation (insert_sorted leb x l) (x :: l).
Proof.
  induction l as [| y t IH]; simpl.
  - apply Permutation_refl.
  - destruct (leb x y).
    + apply Permutation_refl.
    + eapply Permutation_trans; [apply perm_skip, IH | apply perm_swap].
Qed.

Lemma sort_by_perm (l : list A) : Permutation (sort_by leb l) l.
Proof.
  induction l as [| x t IH]; simpl.
  - constructor.
  - eapply Permutation_trans; [apply insert_sorted_perm |].
    now apply perm_skip.
Qed.

Lemma sort_by_length (l : list A) : length (sort_by leb l) = length l.
Proof. apply Permutation_length, sort_by_perm. Qed.

Lemma sort_by_In (x : A) (l : list A) : In x (sort_by leb l) <-> In x l.
Proof.
  split; apply Permutation_in;
    [apply sort_by_perm | apply Permutation_sym, sort_by_perm].
Qed.

Hypothesis leb_total : forall a b, leb a b = true \/ leb b a = true.

Lemma insert_sorted_sorted (x : A) (l : list A) :
  Sorted (fun a b => leb a b = true) l ->
  Sorted (fun a b => leb a b = true) (insert_sorted leb x l).
Proof.
  induction 1 as [| y t Ht IH Hy]; simpl.
  - repeat constructor.
  - destruct (leb x y) eqn:E.
    + constructor; [now constructor | now constructor].
    + constructor; [exact IH |].
      destruct (leb_total x y) as [Hxy | Hyx]; [congruence |].
      destruct Hy as [| z t' Hz]; simpl.
      * now constructor.
      * destruct (leb x z); now constructor.
Qed.

Lemma sort_by_sorted (l : list A) :
  Sorted (fun a b => leb a b = true) (sort_by leb l).
Proof.
  induction l as [| x t IH]; simpl.
  - constructor.
  - now apply insert_sorted_sorted.
Qed.

Hypothesis leb_trans : forall a b c, leb a b = true -> leb b c = true -> leb a c = true.

Lemma sort_by_strongly_sorted (l : list A) :
  StronglySorted (fun a b => leb a b = true) (sort_by leb l).
Proof.
  apply Sorted_StronglySorted; [| apply sort_by_sorted].
  intros a b c. apply leb_trans.
Qed.

End SortFacts.

Lemma index_desc_total (a b : row) : index_desc a b = true \/ index_desc b a = true.
Proof.
  unfold index_desc. rewrite !Qle_bool_iff.
  destruct (Qlt_le_dec (col_index a) (col_index b)) as [H | H].
  - right. now apply Qlt_le_weak.
  - now left.
Qed.

Lemma index_desc_trans (a b c : row) :
  index_desc a b = true -> index_desc b c = true -> index_desc a c = true.
Proof.
  unfold index_desc. rewrite !Qle_bool_iff. intros H1 H2.
  now apply Qle_trans with (col_index b).
Qed.

Lemma avg_desc_total (a b : pystr * Q) : avg_desc a b = true \/ avg_desc b a = true.
Proof.
  unfold avg_desc. rewrite !Qle_bool_iff.
  destruct (Qlt_le_dec (snd a) (snd b)) as [H | H].
  - right. now apply Qlt_le_weak.
  - now left.
Qed.

Lemma pystr_eqb_eq (a b : pystr) : pystr_eqb a b = true <-> a = b.
Proof.
  revert b. induction a as [| x a IH]; intros [| y b]; simpl;
    try (split; [discriminate | congruence]); [tauto |].
  rewrite andb_true_iff, N.eqb_eq, IH. split.
  - intros [-> ->]. reflexivity.
  - intros [= -> ->]. auto.
Qed.

Lemma pystr_eqb_refl (a : pystr) : pystr_eqb a a = true.
Proof. now apply pystr_eqb_eq. Qed.

(** ** [unique] *)

Section UniqueFacts.
Context {A : Type}.
Variable eqb : A -> A -> bool.
Hypothesis eqb_eq : forall a b, eqb a b = true <-> a = b.

Lemma unique_In (x : A) (l : list A) : In x (unique eqb l) <-> In x l.
Proof.
  induction l as [| y t IH]; simpl; [tauto |].
  rewrite filter_In, IH, negb_true_iff.
  destruct (eqb y x) eqn:E.
  - apply eqb_eq in E. subst. intuition congruence.
  - assert (y <> x) by (intros ->; rewrite (proj2 (eqb_eq x x) eq_refl) in E; discriminate).
    tauto.
Qed.

Lemma unique_NoDup (l : list A) : NoDup (unique eqb l).
Proof.
  induction l as [| y t IH]; simpl; constructor.
  - rewrite filter_In, negb_true_iff.
    intros [_ E]. rewrite (proj2 (eqb_eq y y) eq_refl) in E. discriminate.
  - now apply NoDup_filter.
Qed.

End UniqueFacts.

(** ** The year filter *)

Lemma filter_disjoint_perm {A : Type} (p q : A -> bool) (l : list A) :
  (forall x, In x l -> p x = true -> q x = false) ->
  Permutation (filter p l ++ filter q l) (filter (fun x => p x || q x) l).
Proof.
  induction l as [| x t IH]; simpl; intros D.
  - constructor.
  - assert (IH' := IH (fun y Hy => D y (or_intror Hy))).
    destruct (p x) eqn:Ep; simpl.
    + rewrite (D x (or_introl eq_refl) Ep). now apply perm_skip.
    + destruct (q x); simpl.
      * eapply Permutation_trans; [apply Permutation_sym, Permutation_middle |].
        now apply perm_skip.
      * exact IH'.
Qed.

Lemma filter_all {A : Type} (p : A -> bool) (l : list A) :
  (forall x, In x l -> p x = true) -> filter p l = l.
Proof.
  induction l as [| x t IH]; simpl; intros H; [reflexivity |].
  rewrite (H x (or_introl eq_refl)). f_equal. apply IH. auto.
Qed.

Lemma filter_none {A : Type} (p : A -> bool) (l : list A) :
  (forall x, In x l -> p x = false) -> filter p l = [].
Proof.
  induction l as [| x t IH]; simpl; intros H; [reflexivity |].
  rewrite (H x (or_introl eq_refl)). apply IH. auto.
Qed.

Lemma year_slices_perm (ys : list Z) (T : dataframe) :
  NoDup ys ->
  Permutation (flat_map (fun y => year_slice y T) ys)
              (filter (fun r => existsb (Z.eqb (col_year r)) ys) T).
Proof.
  induction 1 as [| y ys' Hy Hnd IH]; simpl.
  - rewrite filter_none; auto.
  - eapply Permutation_trans; [apply Permutation_app_head, IH |].
    unfold year_slice. apply filter_disjoint_perm.
    intros r _ E. apply Z.eqb_eq in E.
    destruct (existsb (Z.eqb (col_year r)) ys') eqn:X; [| reflexivity].
    apply existsb_exists in X. destruct X as [z [Hz Ez]].
    apply Z.eqb_eq in Ez. exfalso. apply Hy. congruence.
Qed.

Lemma years_In (y : Z) (T : dataframe) :
  In y (years T) <-> exists r, In r T /\ col_year r = y.
Proof.
  unfold years. rewrite sort_by_In, (unique_In Z.eqb Z.eqb_eq), in_map_iff.
  split; intros [r [H1 H2]]; exists r; tauto.
Qed.

Lemma years_NoDup (T : dataframe) : NoDup (years T).
Proof.
  unfold years.
  eapply Permutation_NoDup; [apply Permutation_sym, sort_by_perm |].
  apply unique_NoDup, Z.eqb_eq.
Qed.

(** C5.  Filtering by a year [Y] keeps exactly the records of the table
    whose year is [Y]; the distinct years of the table are pairwise
    different, and putting the year slices of all of them together gives
    back the records of the table, each as often as the table has it. *)
Theorem year_filter_partition (T : dataframe) :
  (forall Y r, In r (year_slice Y T) <-> In r T /\ col_year r = Y)
  /\ (forall r, In r T -> In (col_year r) (years T))
  /\ NoDup (years T)
  /\ Permutation (flat_map (fun y => year_slice y T) (years T)) T.
Proof.
  repeat split.
  - unfold year_slice in H. now apply filter_In in H.
  - unfold year_slice in H. apply filter_In in H. now apply Z.eqb_eq.
  - intros [H1 H2]. apply filter_In. split; [exact H1 | now apply Z.eqb_eq].
  - intros r Hr. apply years_In. now exists r.
  - apply years_NoDup.
  - eapply Permutation_trans; [apply year_slices_perm, years_NoDup |].
    rewrite filter_all; [apply Permutation_refl |].
    intros r Hr. apply existsb_exists. exists (col_year r). split.
    + apply years_In. now exists r.
    + apply Z.eqb_refl.
Qed.

(** ** The text filters *)

Section SearchFacts.
Variable lower : N -> N.

Lemma re_compile_literal (s : pystr) :
  no_special s = true -> re_compile s = Some (map Lit s).
Proof.
  induction s as [| c s IH]; simpl; [reflexivity |].
  rewrite andb_true_iff, negb_true_iff. intros [Hc Hs].
  assert (N.eqb c 46 = false /\ N.eqb c 94 = false /\ N.eqb c 36 = false
          /\ N.eqb c 92 = false) as (E1 & E2 & E3 & E4).
  { unfold is_special, special_chars in Hc. simpl in Hc.
    repeat (apply orb_false_iff in Hc; destruct Hc as [? Hc]). auto. }
  rewrite E1, E2, E3, E4, Hc, (IH Hs). reflexivity.
Qed.

Lemma match_here_literal (bol : bool) (s text : pystr) :
  match_here lower bol (map Lit s) text = ci_prefix lower s text.
Proof.
  revert bol text. induction s as [| c s IH]; intros bol text; simpl.
  - reflexivity.
  - destruct text as [| t text]; [reflexivity |]. now rewrite IH.
Qed.

Lemma search_from_literal (bol : bool) (s text : pystr) :
  search_from lower bol (map Lit s) text = ci_substring lower s text.
Proof.
  revert bol. induction text as [| t text IH]; intros bol; simpl;
    rewrite match_here_literal; [reflexivity |].
  now rewrite IH.
Qed.

Lemma filter_contains_literal (field : row -> pystr) (s : pystr) (d : dataframe) :
  no_special s = true ->
  filter_contains lower field s d
  = Some (filter (fun r => ci_substring lower s (field r)) d).
Proof.
  intros H. unfold filter_contains. rewrite (re_compile_literal s H).
  f_equal. apply filter_ext. intros r. apply search_from_literal.
Qed.

Lemma ci_substring_empty (text : pystr) : ci_substring lower [] text = true.
Proof. destruct text; reflexivity. Qed.

(** The filter block when both search strings are free of special
    characters: every stage is a plain [filter]. *)
Lemma filtered_df_literal (df : dataframe) (ui : selection) :
  no_special (company_name ui) = true ->
  no_special (stock_code ui) = true ->
  filtered_df lower df ui
  = Some (filter (fun r => ci_substring lower (stock_code ui) (col_stock_code r))
            (filter (fun r => ci_substring lower (company_name ui) (col_company r))
               (by_industry (selected_industry ui)
                  (year_slice (selected_year ui) df)))).
Proof.
  intros Hc Hs. unfold filtered_df.
  assert (E : forall field s d, no_special s = true ->
            match s with
            | _ :: _ => filter_contains lower field s d
            | [] => Some d
            end = Some (filter (fun r => ci_substring lower s (field r)) d)).
  { intros field s d H. destruct s as [| c s].
    - f_equal. symmetry. apply filter_all. intros. apply ci_substring_empty.
    - now apply filter_contains_literal. }
  rewrite (E col_company _ _ Hc). apply (E col_stock_code _ _ Hs).
Qed.

End SearchFacts.

(** C3, as the code has it.  When the two search strings hold no special
    character of [re], the filtered view is the year and industry slice
    restricted, in table order, to the rows whose company name contains
    the company string and whose stock code contains the stock-code string
    as a case-insensitive literal substring. *)
Theorem literal_search_exact (lower : N -> N) (df : dataframe) (ui : selection)
    (Hcompany : no_special (company_name ui) = true)
    (Hstock : no_special (stock_code ui) = true) :
  exists view,
    filtered_df lower df ui = Some view
    /\ view = filter (fun r => ci_substring lower (stock_code ui) (col_stock_code r))
                (filter (fun r => ci_substring lower (company_name ui) (col_company r))
                   (by_industry (selected_industry ui)
                      (year_slice (selected_year ui) df)))
    /\ forall r, In r view <->
         In r (by_industry (selected_industry ui) (year_slice (selected_year ui) df))
         /\ ci_substring lower (company_name ui) (col_company r) = true
         /\ ci_substring lower (stock_code ui) (col_stock_code r) = true.
Proof.
  eexists. split; [now apply filtered_df_literal |]. split; [reflexivity |].
  intros r. rewrite !filter_In. tauto.
Qed.

Lemma literal_search_exact_witness :
  exists view,
    filtered_df ascii_lower sample_table (pick 2021 "BANK") = Some view
    /\ view = [alpha]
    /\ forall r, In r view <->
         In r (by_industry ALL_INDUSTRIES (year_slice 2021 sample_table))
         /\ ci_substring ascii_lower (codepoints "BANK") (col_company r) = true
         /\ ci_substring ascii_lower [] (col_stock_code r) = true.
Proof.
  exact (literal_search_exact ascii_lower sample_table (pick 2021 "BANK")
           eq_refl eq_refl).
Defined.

(** C3, as stated, fails: the search string is compiled as a regular
    expression, so "." selects every row with a non-empty company name,
    none of which contains a full stop. *)
Lemma search_string_is_regex :
  ~ (forall (lower : N -> N) (df : dataframe) (ui : selection) (view : dataframe),
       company_name ui <> [] ->
       filtered_df lower df ui = Some view ->
       forall r, In r view ->
         ci_substring lower (company_name ui) (col_company r) = true).
Proof.
  intros H.
  specialize (H ascii_lower sample_table (pick 2021 ".") [alpha; beta; gamma]).
  assert (C : ci_substring ascii_lower (codepoints ".") (col_company alpha) = true).
  { apply H; [discriminate | reflexivity | now left]. }
  vm_compute in C. discriminate.
Qed.

(** ** Sentinels *)

Lemma filtered_df_spec_filter (lower : N -> N) (df : dataframe) (ui : selection) :
  filtered_df lower df ui
  = spec_filter lower df (selected_year ui)
      (industry_criterion (selected_industry ui))
      (text_criterion (company_name ui)) (text_criterion (stock_code ui)).
Proof.
  unfold filtered_df, spec_filter, by_industry, industry_criterion, text_criterion.
  destruct (pystr_eqb (selected_industry ui) ALL_INDUSTRIES); simpl;
    destruct (company_name ui); simpl; destruct (stock_code ui); reflexivity.
Qed.

(** C7.  With '全部' as the industry, the filtered view is the one the
    filter engine gives with no industry criterion; with an empty company
    string, the one with no company criterion; with an empty stock-code
    string, the one with no stock-code criterion.  The other criteria are
    applied as selected in each case. *)
Theorem sentinels_are_noops (lower : N -> N) (df : dataframe)
    (y : Z) (industry company stock : pystr) :
  filtered_df lower df (mkSelection y ALL_INDUSTRIES company stock)
  = spec_filter lower df y None (text_criterion company) (text_criterion stock)
  /\ filtered_df lower df (mkSelection y industry [] stock)
     = spec_filter lower df y (industry_criterion industry) None (text_criterion stock)
  /\ filtered_df lower df (mkSelection y industry company [])
     = spec_filter lower df y (industry_criterion industry) (text_criterion company) None.
Proof.
  repeat split; apply filtered_df_spec_filter.
Qed.

(** ** The empty view *)

(** C1, as the code has it.  When the filtered view is empty the page
    below the sidebar is the row-count tile showing 0, the warning, the
    three headings and whatever the industry comparison renders for the
    selected year: no mean, maximum or minimum tile, no histogram and no
    ranked table. *)
Theorem empty_view_page (lower : N -> N) (mean : list Q -> Q)
    (df : dataframe) (ui : selection)
    (Hempty : filtered_df lower df ui = Some []) :
  main_content lower mean df ui
  = Some (sidebar df ui
          ++ [StMetric CompanyCount (IntValue 0); StWarning;
              StSubheader DistributionHeading; StSubheader RankingHeading]
          ++ industry_comparison mean df ui).
Proof.
  unfold main_content. rewrite Hempty. reflexivity.
Qed.

Lemma empty_view_page_witness :
  filtered_df ascii_lower sample_table (pick 2021 "zzz") = Some []
  /\ main_content ascii_lower exact_mean sample_table (pick 2021 "zzz")
     = Some (sidebar sample_table (pick 2021 "zzz")
             ++ [StMetric CompanyCount (IntValue 0); StWarning;
                 StSubheader DistributionHeading; StSubheader RankingHeading]
             ++ industry_comparison exact_mean sample_table (pick 2021 "zzz")).
Proof.
  split; [reflexivity |].
  exact (empty_view_page ascii_lower exact_mean sample_table (pick 2021 "zzz")
           eq_refl).
Defined.

(** C1, as stated, fails: the row-count tile is rendered before the view
    is tested for emptiness, and the industry bar chart does not depend on
    the view. *)
Lemma empty_view_renders_count_tile :
  ~ (forall (lower : N -> N) (mean : list Q -> Q) (df : dataframe)
            (ui : selection) (page : list element),
       filtered_df lower df ui = Some [] ->
       main_content lower mean df ui = Some page ->
       In StWarning page
       /\ forall e, In e page ->
            is_metric e = false /\ is_chart e = false /\ is_table e = false).
Proof.
  intros H.
  destruct (H ascii_lower exact_mean sample_table (pick 2021 "zzz") _
              eq_refl eq_refl) as [_ C].
  destruct (C (StMetric CompanyCount (IntValue 0))) as [M _].
  - vm_compute. tauto.
  - discriminate M.
Qed.

(** ** Maximum and minimum of a column *)

Lemma qmax_cases (a b : Q) :
  (qmax a b = a \/ qmax a b = b) /\ (a <= qmax a b)%Q /\ (b <= qmax a b)%Q.
Proof.
  unfold qmax. destruct (Qle_bool a b) eqn:E.
  - apply Qle_bool_iff in E. repeat split; auto. apply Qle_refl.
  - assert (b <= a)%Q.
    { destruct (Qlt_le_dec a b) as [L | L]; [| exact L].
      apply Qlt_le_weak, Qle_bool_iff in L. congruence. }
    repeat split; auto. apply Qle_refl.
Qed.

Lemma qmin_cases (a b : Q) :
  (qmin a b = a \/ qmin a b = b) /\ (qmin a b <= a)%Q /\ (qmin a b <= b)%Q.
Proof.
  unfold qmin. destruct (Qle_bool a b) eqn:E.
  - apply Qle_bool_iff in E. repeat split; auto. apply Qle_refl.
  - assert (b <= a)%Q.
    { destruct (Qlt_le_dec a b) as [L | L]; [| exact L].
      apply Qlt_le_weak, Qle_bool_iff in L. congruence. }
    repeat split; auto. apply Qle_refl.
Qed.

Lemma series_max_spec (x : Q) (rest : list Q) :
  In (series_max x rest) (x :: rest)
  /\ forall y, In y (x :: rest) -> (y <= series_max x rest)%Q.
Proof.
  unfold series_max. revert x.
  induction rest as [| z rest IH]; intros x; simpl.
  - split; [now left |]. intros y [<- | []]. apply Qle_refl.
  - destruct (IH (qmax x z)) as [Hin Hub].
    destruct (qmax_cases x z) as (Hc & Hx & Hz). split.
    + destruct Hin as [E | Hin]; [| now right; right].
      rewrite <- E. destruct Hc as [-> | ->]; [now left | now right; left].
    + intros y [<- | [<- | Hy]].
      * eapply Qle_trans; [exact Hx | apply Hub; now left].
      * eapply Qle_trans; [exact Hz | apply Hub; now left].
      * apply Hub. now right.
Qed.

Lemma series_min_spec (x : Q) (rest : list Q) :
  In (series_min x rest) (x :: rest)
  /\ forall y, In y (x :: rest) -> (series_min x rest <= y)%Q.
Proof.
  unfold series_min. revert x.
  induction rest as [| z rest IH]; intros x; simpl.
  - split; [now left |]. intros y [<- | []]. apply Qle_refl.
  - destruct (IH (qmin x z)) as [Hin Hlb].
    destruct (qmin_cases x z) as (Hc & Hx & Hz). split.
    + destruct Hin as [E | Hin]; [| now right; right].
      rewrite <- E. destruct Hc as [-> | ->]; [now left | now right; left].
    + intros y [<- | [<- | Hy]].
      * eapply Qle_trans; [apply Hlb; now left | exact Hx].
      * eapply Qle_trans; [apply Hlb; now left | exact Hz].
      * apply Hlb. now right.
Qed.

(** ** The ranked table *)

Lemma combine_seq {B : Type} (l : list B) (start : nat) :
  map fst (combine (seq start (length l)) l) = seq start (length l)
  /\ map snd (combine (seq start (length l)) l) = l.
Proof.
  revert start. induction l as [| b l IH]; intros start; simpl.
  - auto.
  - destruct (IH (S start)) as [-> ->]. auto.
Qed.

Lemma StronglySorted_firstn {B : Type} (R : B -> B -> Prop) (n : nat) (l : list B) :
  StronglySorted R l -> StronglySorted R (firstn n l).
Proof.
  intros H. revert n. induction H as [| a l Hl IH Ha]; intros [| n]; simpl;
    try constructor.
  - apply IH.
  - rewrite Forall_forall in *. intros b Hb. apply Ha.
    rewrite <- (firstn_skipn n l). apply in_or_app. now left.
Qed.

Lemma StronglySorted_map {B C : Type} (R : C -> C -> Prop) (f : B -> C) (l : list B) :
  StronglySorted (fun a b => R (f a) (f b)) l -> StronglySorted R (map f l).
Proof.
  induction 1 as [| a l Hl IH Ha]; simpl; constructor; [exact IH |].
  rewrite Forall_forall in *. intros c Hc.
  apply in_map_iff in Hc. destruct Hc as [b [<- Hb]]. now apply Ha.
Qed.


Lemma ranked_rows (view : dataframe) :
  map snd (display_df view) = firstn 20 (map project (sort_by index_desc view))
  /\ map fst (display_df view) = seq 1 (Nat.min 20 (length view)).
Proof.
  unfold display_df.
  destruct (combine_seq (firstn 20 (map project (sort_by index_desc view))) 1)
    as [F S].
  split; [exact S |].
  rewrite F, length_firstn, length_map, sort_by_length. reflexivity.
Qed.

Lemma ranked_sorted (view : dataframe) :
  StronglySorted (fun a b => (shown_index b <= shown_index a)%Q)
    (map project (sort_by index_desc view)).
Proof.
  apply StronglySorted_map.
  eapply StronglySorted_ind with
    (P := StronglySorted (fun a b => (shown_index (project b) <= shown_index (project a))%Q));
    [constructor | | apply (sort_by_strongly_sorted index_desc index_desc_total index_desc_trans)].
  intros a l _ IH Ha. constructor; [exact IH |].
  rewrite Forall_forall in *. intros b Hb. simpl.
  apply Qle_bool_iff. exact (Ha b Hb).
Qed.



(** ** The industry comparison *)

Lemma avg_desc_trans (a b c : pystr * Q) :
  avg_desc a b = true -> avg_desc b c = true -> avg_desc a c = true.
Proof.
  unfold avg_desc. rewrite !Qle_bool_iff. intros H1 H2.
  now apply Qle_trans with (snd b).
Qed.

Section IndustryFacts.
Variable mean : list Q -> Q.

Lemma groupby_mean_keys (d : dataframe) :
  map fst (groupby_mean mean d)
  = sort_by pystr_leb (unique pystr_eqb (map col_industry_name d)).
Proof.
  unfold groupby_mean. rewrite map_map. simpl. apply map_id.
Qed.

Lemma industry_avg_names (d : dataframe) :
  Permutation (map fst (industry_avg mean d))
              (unique pystr_eqb (map col_industry_name d)).
Proof.
  unfold industry_avg.
  eapply Permutation_trans; [apply Permutation_map, sort_by_perm |].
  rewrite groupby_mean_keys. apply sort_by_perm.
Qed.

Lemma industry_avg_NoDup (d : dataframe) : NoDup (map fst (industry_avg mean d)).
Proof.
  eapply Permutation_NoDup; [apply Permutation_sym, industry_avg_names |].
  apply unique_NoDup, pystr_eqb_eq.
Qed.



(** Two groups never share a name, so at most one of them is the
    sentinel: among two or more groups one always remains. *)
Lemma non_unknown_remains (avg : list (pystr * Q)) :
  NoDup (map fst avg) -> (2 <= length avg)%nat -> non_unknown avg <> [].
Proof.
  destruct avg as [| a [| b t]]; simpl; try lia. intros Hnd _.
  inversion Hnd as [| ? ? Hnotin _]; subst.
  unfold non_unknown. simpl.
  destruct (pystr_eqb (fst a) UNKNOWN_INDUSTRY) eqn:Ea; simpl; [| discriminate].
  destruct (pystr_eqb (fst b) UNKNOWN_INDUSTRY) eqn:Eb; simpl; [| discriminate].
  apply pystr_eqb_eq in Ea, Eb. exfalso. apply Hnotin. left. congruence.
Qed.

(** The branch of line 160 is never taken. *)
Lemma info_unreachable (df : dataframe) (ui : selection) :
  ~ In StInfo (industry_comparison mean df ui).
Proof.
  unfold industry_comparison.
  set (avg := industry_avg mean (year_slice (selected_year ui) df)).
  destruct (1 <? length avg)%nat eqn:G; simpl.
  - apply Nat.ltb_lt in G.
    assert (N := non_unknown_remains avg (industry_avg_NoDup _) G).
    destruct (non_unknown avg) as [| g l]; [congruence |]. simpl.
    intros [H | [H | []]]; discriminate.
  - intros [H | []]. discriminate.
Qed.

End IndustryFacts.

(** C2, as the code has it.  If the grouping of the year slice yields
    fewer than 2 industry groups, no industry bar chart is rendered, and
    when the one group is not the sentinel nothing stands in its place:
    the heading is all the comparison renders. *)
Theorem few_groups_no_chart (mean : list Q -> Q) (df : dataframe) (ui : selection)
    (Hfew : (length (industry_avg mean (year_slice (selected_year ui) df)) < 2)%nat) :
  (forall e, In e (industry_comparison mean df ui) -> is_bar_chart e = false)
  /\ (non_unknown (industry_avg mean (year_slice (selected_year ui) df)) <> [] ->
      industry_comparison mean df ui = [StSubheader IndustryHeading]).
Proof.
  unfold industry_comparison.
  assert (G : (1 <? length (industry_avg mean (year_slice (selected_year ui) df)))%nat = false)
    by (apply Nat.ltb_ge; lia).
  rewrite G. split; [| reflexivity].
  intros e [<- | []]. reflexivity.
Qed.

Lemma few_groups_no_chart_witness :
  (length (industry_avg exact_mean (year_slice 2020 sample_table)) < 2)%nat
  /\ (forall e, In e (industry_comparison exact_mean sample_table (pick 2020 "")) ->
        is_bar_chart e = false)
  /\ (non_unknown (industry_avg exact_mean (year_slice 2020 sample_table)) <> [] ->
      industry_comparison exact_mean sample_table (pick 2020 "")
      = [StSubheader IndustryHeading]).
Proof.
  assert (H : (length (industry_avg exact_mean
                         (year_slice (selected_year (pick 2020 "")) sample_table)) < 2)%nat)
    by (vm_compute; lia).
  split; [exact H |].
  exact (few_groups_no_chart exact_mean sample_table (pick 2020 "") H).
Defined.

(** C2, as stated, fails: for a year whose rows all belong to one known
    industry the comparison renders its heading and nothing else, no
    informational message. *)
Lemma single_group_no_info :
  ~ (forall (mean : list Q -> Q) (df : dataframe) (ui : selection),
       (length (industry_avg mean (year_slice (selected_year ui) df)) < 2)%nat
       \/ non_unknown (industry_avg mean (year_slice (selected_year ui) df)) = [] ->
       In StInfo (industry_comparison mean df ui)).
Proof.
  intros H.
  assert (C : In StInfo (industry_comparison exact_mean sample_table (pick 2020 ""))).
  { apply H. left. vm_compute. lia. }
  vm_compute in C. destruct C as [C | []]. discriminate C.
Qed.


(** In 2023 the unclassified group has the highest mean and is left out
    of the chart all the same. *)
Example sentinel_left_out_when_highest :
  industry_avg exact_mean (year_slice 2023 sample_table)
  = [(UNKNOWN_INDUSTRY, 95 # 1); (codepoints "Finance", 20 # 1)]
  /\ industry_comparison exact_mean sample_table (pick 2023 "")
     = [StSubheader IndustryHeading;
        StPlotlyChart 2023 [(codepoints "Finance", 20 # 1)]].
Proof. split; reflexivity. Qed.

(** ** The loader *)

Lemma probe_first (fs : filesystem) (before : list string) (p : string)
    (after : list string) :
  Forall (fun q => path_exists fs q = false) before ->
  path_exists fs p = true ->
  probe fs (before ++ p :: after)
  = match read_excel fs p with
    | Some raw => Loaded p raw
    | None => ReadRaised
    end.
Proof.
  induction 1 as [| q before Hq _ IH]; simpl; intros Hp.
  - now rewrite Hp.
  - rewrite Hq. now apply IH.
Qed.

Lemma probe_none (fs : filesystem) (paths : list string) :
  Forall (fun q => path_exists fs q = false) paths -> probe fs paths = NotFound.
Proof.
  induction 1 as [| q paths Hq _ IH]; simpl; [reflexivity |].
  now rewrite Hq.
Qed.

Section LoaderFacts.
Variable lower : N -> N.
Variable mean : list Q -> Q.
Variable astype_str : cell -> pystr.
Variable astype_int : cell -> option Z.

Lemma load_data_absent (fs : filesystem) (messages : list element) :
  load_data astype_str astype_int fs = (messages, None) ->
  (exists f, In (StError f) messages)
  /\ forall e, In e messages -> exists p f, e = StSuccess p \/ e = StError f.
Proof.
  unfold load_data.
  destruct (probe fs possible_paths) as [| | path raw].
  - intros [= <-]. split; [exists FileNotFound; now left |].
    intros e [<- | []]. exists EmptyString, FileNotFound. now right.
  - intros [= <-]. split; [exists LoadFailed; now left |].
    intros e [<- | [<- | []]]; [exists EmptyString, LoadFailed
                               | exists EmptyString, Traceback]; now right.
  - destruct (normalize astype_str astype_int raw); [discriminate |].
    intros [= <-]. split; [exists LoadFailed; right; now left |].
    intros e [<- | [<- | [<- | []]]];
      [exists path, LoadFailed; now left
      | exists EmptyString, LoadFailed; now right
      | exists EmptyString, Traceback; now right].
Qed.

End LoaderFacts.

(** C9.  The loader takes the first candidate path that exists and reads
    that one: if reading or normalizing raises it renders the failure and
    returns nothing, otherwise it returns the normalized table.  If no
    candidate exists it renders the failure and returns nothing.  And
    whenever it returns nothing the page of the run is the loader's own
    messages, a failure among them: no sidebar widget, metric, table or
    chart. *)
Theorem loader_contract (lower : N -> N) (mean : list Q -> Q)
    (astype_str : cell -> pystr) (astype_int : cell -> option Z)
    (fs : filesystem) (ui : selection) :
  (forall before p after,
      possible_paths = before ++ p :: after ->
      Forall (fun q => path_exists fs q = false) before ->
      path_exists fs p = true ->
      load_data astype_str astype_int fs
      = match read_excel fs p with
        | None => ([StError LoadFailed; StError Traceback], None)
        | Some raw =>
            match normalize astype_str astype_int raw with
            | Some df => ([StSuccess p], Some df)
            | None => ([StSuccess p; StError LoadFailed; StError Traceback], None)
            end
        end)
  /\ (Forall (fun q => path_exists fs q = false) possible_paths ->
      load_data astype_str astype_int fs = ([StError FileNotFound], None))
  /\ (forall messages,
        load_data astype_str astype_int fs = (messages, None) ->
        (exists f, In (StError f) messages)
        /\ snd (script lower mean astype_str astype_int None fs ui) = Some messages
        /\ forall e, In e messages ->
             is_sidebar e = false /\ is_metric e = false
             /\ is_table e = false /\ is_chart e = false).
Proof.
  split; [| split].
  - intros before p after E Hb Hp. unfold load_data.
    rewrite E, (probe_first fs before p after Hb Hp).
    destruct (read_excel fs p); reflexivity.
  - intros H. unfold load_data. now rewrite (probe_none fs _ H).
  - intros messages H.
    destruct (load_data_absent astype_str astype_int fs messages H) as [Herr Hall].
    split; [exact Herr | split].
    + unfold script, cached_load_data. rewrite H. reflexivity.
    + intros e He. destruct (Hall e He) as (p & f & [-> | ->]); repeat split.
Qed.

Example loader_on_samples :
  load_data cast_str cast_int fs_cwd
  = ([StSuccess "合并后的数字化转型指数数据.xlsx"], Some sample_loaded)
  /\ load_data cast_str cast_int fs_app
     = ([StSuccess "/app/合并后的数字化转型指数数据.xlsx"], Some sample_loaded)
  /\ script ascii_lower exact_mean cast_str cast_int None fs_bare (pick 2021 "")
     = (Some ([StError FileNotFound], None), Some [StError FileNotFound]).
Proof. repeat split. Qed.

(** ** Determinism *)

(** A run that hits the cache renders the page of the run that filled it,
    whatever has become of the files. *)
Lemma rerun_same_page (lower : N -> N) (mean : list Q -> Q)
    (astype_str : cell -> pystr) (astype_int : cell -> option Z)
    (fs fs' : filesystem) (ui : selection) :
  let first := script lower mean astype_str astype_int None fs ui in
  script lower mean astype_str astype_int (fst first) fs' ui = first.
Proof.
  unfold script, cached_load_data.
  destruct (load_data astype_str astype_int fs) as [messages [d |]]; reflexivity.
Qed.



(** ** The summary tiles *)

(** [int()] drops the fractional part: toward zero on either side. *)
Lemma py_int_truncates (x : Q) :
  ((0 <= x)%Q -> (inject_Z (py_int x) <= x)%Q /\ (x < inject_Z (py_int x) + 1)%Q)
  /\ ((x <= 0)%Q -> (x <= inject_Z (py_int x))%Q /\ (inject_Z (py_int x) - 1 < x)%Q).
Proof.
  destruct x as [n d]. unfold py_int, Qle, Qlt. simpl.
  assert (Hd : 0 < Z.pos d) by lia.
  assert (E := Z.quot_rem' n (Z.pos d)).
  split; intros H.
  - assert (R := Z.rem_bound_pos n (Z.pos d) ltac:(lia) Hd). lia.
  - assert (R := Z.rem_bound_pos_neg n (Z.pos d) Hd ltac:(lia)). lia.
Qed.

(** For a non-empty view the tiles are the row count, the mean to one
    decimal, and the truncated maximum and minimum of the index column. *)
Lemma summary_nonempty (mean : list Q -> Q) (view : dataframe) (x : Q) (xs : list Q) :
  map col_index view = x :: xs ->
  summary mean view
  = [StMetric CompanyCount (IntValue (Z.of_nat (length view)));
     StMetric AvgIndex (OneDecimal (mean (x :: xs)));
     StMetric MaxIndex (IntValue (py_int (series_max x xs)));
     StMetric MinIndex (IntValue (py_int (series_min x xs)))].
Proof.
  intros E. unfold summary. now rewrite E.
Qed.

(** * Further properties *)

(** ** The year selector *)

Lemma ascending_strict (l : list Z) :
  StronglySorted (fun a b => Z.leb a b = true) l -> NoDup l ->
  StronglySorted Z.lt l.
Proof.
  induction 1 as [| a l Hl IH Ha]; intros Hnd; constructor;
    inversion Hnd as [| ? ? Hnotin Hnd']; subst.
  - now apply IH.
  - rewrite Forall_forall in *. intros b Hb.
    assert (a <> b) by (intros ->; contradiction).
    specialize (Ha b Hb). apply Z.leb_le in Ha. lia.
Qed.

Lemma years_strictly_sorted (df : dataframe) : StronglySorted Z.lt (years df).
Proof.
  apply ascending_strict; [| apply years_NoDup].
  unfold years. apply sort_by_strongly_sorted.
  - intros a b. rewrite !Z.leb_le. lia.
  - intros a b c. rewrite !Z.leb_le. lia.
Qed.

(** X2.  The options of the year selector are in strictly ascending
    order. *)
Theorem years_ascending (df : dataframe) : StronglySorted Z.lt (years df).
Proof. apply years_strictly_sorted. Qed.

Lemma index_from_found (y : Z) (l : list Z) (i j : Z) :
  index_from i y l = Some j ->
  i <= j < i + Z.of_nat (length l)
  /\ nth_error l (Z.to_nat (j - i)) = Some y.
Proof.
  revert i. induction l as [| x t IH]; intros i; simpl; [discriminate |].
  destruct (Z.eqb_spec x y) as [-> | Hne].
  - intros [= <-]. split; [lia |]. now rewrite Z.sub_diag.
  - intros H. destruct (IH _ H) as [Hb Hn]. split; [lia |].
    replace (Z.to_nat (j - i)) with (S (Z.to_nat (j - (i + 1)))) by lia.
    exact Hn.
Qed.

Lemma index_from_missing (y : Z) (l : list Z) (i : Z) :
  index_from i y l = None -> ~ In y l.
Proof.
  revert i. induction l as [| x t IH]; intros i; simpl; [tauto |].
  destruct (Z.eqb_spec x y) as [-> | Hne]; [discriminate |].
  intros H [E | Hin]; [congruence | exact (IH _ H Hin)].
Qed.

Lemma last_is_greatest (l : list Z) (m : Z) :
  StronglySorted Z.lt l ->
  nth_error l (length l - 1) = Some m ->
  forall y, In y l -> y <= m.
Proof.
  induction 1 as [| a t Ht IH Ha]; simpl; [discriminate |].
  rewrite Nat.sub_0_r. destruct t as [| b t'].
  - simpl. intros [= <-] y [<- | []]. lia.
  - intros Hm. change (nth_error (b :: t') (length t') = Some m) in Hm.
    assert (Hm' : nth_error (b :: t') (length (b :: t') - 1) = Some m)
      by (simpl; now rewrite Nat.sub_0_r).
    intros y [<- | Hy].
    + rewrite Forall_forall in Ha. apply nth_error_In in Hm.
      specialize (Ha m Hm). lia.
    + now apply IH.
Qed.

(** X1.  For a table with at least one row the default position of the
    year selector is a position of the option list; the year there is
    2021 when the table has rows of 2021 and the latest year of the table
    otherwise. *)
Theorem default_year_selected (df : dataframe) (Hrows : df <> []) :
  0 <= default_index (years df) < Z.of_nat (length (years df))
  /\ exists y,
       nth_error (years df) (Z.to_nat (default_index (years df))) = Some y
       /\ (In default_year (years df) -> y = default_year)
       /\ (~ In default_year (years df) -> forall y', In y' (years df) -> y' <= y).
Proof.
  assert (Hlen : (0 < length (years df))%nat).
  { destruct df as [| r df']; [congruence |].
    assert (H : In (col_year r) (years (r :: df')))
      by (apply years_In; exists r; split; [now left | reflexivity]).
    destruct (years (r :: df')); [destruct H | simpl; lia]. }
  unfold default_index.
  destruct (index_from 0 default_year (years df)) as [i |] eqn:E.
  - destruct (index_from_found _ _ _ _ E) as [Hb Hn].
    rewrite Z.sub_0_r in Hn. split; [lia |].
    exists default_year. split; [exact Hn |]. split; [reflexivity |].
    intros Hno. exfalso. apply Hno. now apply nth_error_In in Hn.
  - apply index_from_missing in E. split; [lia |].
    replace (Z.to_nat (Z.of_nat (length (years df)) - 1))
      with (length (years df) - 1)%nat by lia.
    destruct (nth_error (years df) (length (years df) - 1)) as [m |] eqn:Hm.
    + exists m. split; [reflexivity |]. split; [intros H; contradiction |].
      intros _. apply last_is_greatest; [apply years_strictly_sorted | exact Hm].
    + apply nth_error_None in Hm. lia.
Qed.

Lemma default_year_selected_witness :
  0 <= default_index (years sample_table) < Z.of_nat (length (years sample_table))
  /\ exists y,
       nth_error (years sample_table)
                 (Z.to_nat (default_index (years sample_table))) = Some y
       /\ (In default_year (years sample_table) -> y = default_year)
       /\ (~ In default_year (years sample_table) ->
           forall y', In y' (years sample_table) -> y' <= y).
Proof.
  apply (default_year_selected sample_table). discriminate.
Defined.

(** ** The filter block as one selection *)

Lemma filter_twice {A : Type} (p q : A -> bool) (l : list A) :
  filter p (filter q l) = filter (fun x => q x && p x) l.
Proof.
  induction l as [| x t IH]; simpl; [reflexivity |].
  destruct (q x); simpl; [destruct (p x) |]; now rewrite IH.
Qed.

Lemma by_industry_filter (industry : pystr) (d : dataframe) :
  by_industry industry d = filter (industry_matches industry) d.
Proof.
  unfold by_industry, industry_matches.
  destruct (pystr_eqb industry ALL_INDUSTRIES); simpl.
  - symmetry. now apply filter_all.
  - reflexivity.
Qed.

Lemma box_filter (lower : N -> N) (field : row -> pystr) (box : pystr) (d : dataframe) :
  match box with
  | _ :: _ => filter_contains lower field box d
  | [] => Some d
  end
  = if box_compiles box
    then Some (filter (fun r => box_matches lower box (field r)) d)
    else None.
Proof.
  unfold box_compiles, box_matches, filter_contains. destruct box as [| c box'].
  - f_equal. symmetry. now apply filter_all.
  - destruct (re_compile (c :: box')); reflexivity.
Qed.

Lemma filtered_df_cases (lower : N -> N) (df : dataframe) (ui : selection) :
  filtered_df lower df ui
  = if box_compiles (company_name ui) && box_compiles (stock_code ui)
    then Some (filter (row_selected lower ui) df)
    else None.
Proof.
  unfold filtered_df. rewrite (box_filter lower col_company).
  destruct (box_compiles (company_name ui)); simpl; [| reflexivity].
  rewrite (box_filter lower col_stock_code).
  destruct (box_compiles (stock_code ui)); [| reflexivity].
  f_equal. rewrite by_industry_filter. unfold year_slice.
  rewrite !filter_twice. apply filter_ext. intros r.
  unfold row_selected. now rewrite !andb_assoc.
Qed.

(** X3.  Whenever the filter block yields a view, the view is the table
    restricted, in table order, to the rows that pass all four criteria at
    once: year, industry, company box and stock-code box. *)
Theorem filtered_view_conjunctive (lower : N -> N) (df : dataframe)
    (ui : selection) (view : dataframe)
    (Hview : filtered_df lower df ui = Some view) :
  view = filter (row_selected lower ui) df
  /\ forall r, In r view <->
       In r df /\ col_year r = selected_year ui
       /\ industry_matches (selected_industry ui) r = true
       /\ box_matches lower (company_name ui) (col_company r) = true
       /\ box_matches lower (stock_code ui) (col_stock_code r) = true.
Proof.
  rewrite filtered_df_cases in Hview.
  destruct (box_compiles (company_name ui) && box_compiles (stock_code ui));
    [| discriminate].
  injection Hview as <-. split; [reflexivity |].
  intros r. rewrite filter_In. unfold row_selected.
  rewrite !andb_true_iff, Z.eqb_eq. tauto.
Qed.

Lemma filtered_view_conjunctive_witness :
  [alpha] = filter (row_selected ascii_lower (pick 2021 "^al.ha")) sample_table
  /\ forall r, In r [alpha] <->
       In r sample_table /\ col_year r = 2021
       /\ industry_matches ALL_INDUSTRIES r = true
       /\ box_matches ascii_lower (codepoints "^al.ha") (col_company r) = true
       /\ box_matches ascii_lower [] (col_stock_code r) = true.
Proof.
  exact (filtered_view_conjunctive ascii_lower sample_table (pick 2021 "^al.ha")
           [alpha] eq_refl).
Defined.

(** X4.  Filtering a view again with the selection that produced it
    changes nothing. *)
Theorem filter_idempotent (lower : N -> N) (df : dataframe)
    (ui : selection) (view : dataframe)
    (Hview : filtered_df lower df ui = Some view) :
  filtered_df lower view ui = Some view.
Proof.
  rewrite filtered_df_cases in *.
  destruct (box_compiles (company_name ui) && box_compiles (stock_code ui));
    [| discriminate].
  injection Hview as <-. f_equal.
  rewrite filter_twice. apply filter_ext. intros r. apply andb_diag.
Qed.

Lemma filter_idempotent_witness :
  filtered_df ascii_lower [alpha; beta; gamma] (pick 2021 "")
  = Some [alpha; beta; gamma].
Proof.
  exact (filter_idempotent ascii_lower sample_table (pick 2021 "")
           [alpha; beta; gamma] eq_refl).
Defined.

(** X5.  A criterion only removes rows: the view of a selection is the
    view of the same selection with the industry set to '全部', or with
    the company box emptied, or with the stock-code box emptied, restricted
    to the rows that pass the criterion left out. *)
Theorem criteria_only_narrow (lower : N -> N) (df : dataframe)
    (y : Z) (industry company stock : pystr) (view : dataframe)
    (Hview : filtered_df lower df (mkSelection y industry company stock) = Some view) :
  (exists wide,
      filtered_df lower df (mkSelection y ALL_INDUSTRIES company stock) = Some wide
      /\ view = filter (industry_matches industry) wide)
  /\ (exists wide,
        filtered_df lower df (mkSelection y industry [] stock) = Some wide
        /\ view = filter (fun r => box_matches lower company (col_company r)) wide)
  /\ (exists wide,
        filtered_df lower df (mkSelection y industry company []) = Some wide
        /\ view = filter (fun r => box_matches lower stock (col_stock_code r)) wide).
Proof.
  rewrite filtered_df_cases in Hview. simpl in Hview.
  destruct (box_compiles company) eqn:Ec; [| discriminate].
  destruct (box_compiles stock) eqn:Es; [| discriminate].
  injection Hview as <-.
  repeat split; eexists; rewrite filtered_df_cases; simpl; rewrite ?Ec, ?Es; simpl;
    (split; [reflexivity |]); rewrite filter_twice; apply filter_ext;
    intros r; unfold row_selected, industry_matches; simpl;
    rewrite ?pystr_eqb_refl; simpl;
    destruct (col_year r =? y), (pystr_eqb industry ALL_INDUSTRIES),
      (pystr_eqb (col_industry_name r) industry),
      (box_matches lower company (col_company r)),
      (box_matches lower stock (col_stock_code r)); reflexivity.
Qed.

Lemma criteria_only_narrow_witness :
  (exists wide,
      filtered_df ascii_lower sample_table
        (mkSelection 2021 ALL_INDUSTRIES (codepoints "a") []) = Some wide
      /\ [alpha; beta]
         = filter (industry_matches (codepoints "Finance")) wide)
  /\ (exists wide,
        filtered_df ascii_lower sample_table
          (mkSelection 2021 (codepoints "Finance") [] []) = Some wide
        /\ [alpha; beta]
           = filter (fun r => box_matches ascii_lower (codepoints "a") (col_company r)) wide)
  /\ (exists wide,
        filtered_df ascii_lower sample_table
          (mkSelection 2021 (codepoints "Finance") (codepoints "a") []) = Some wide
        /\ [alpha; beta]
           = filter (fun r => box_matches ascii_lower [] (col_stock_code r)) wide).
Proof.
  exact (criteria_only_narrow ascii_lower sample_table 2021 (codepoints "Finance")
           (codepoints "a") [] [alpha; beta] eq_refl).
Defined.

(** ** Case and the search boxes *)

Section CaseFacts.
Variable lower : N -> N.

Lemma ci_prefix_fold (s s' text : pystr) :
  map lower s = map lower s' -> ci_prefix lower s text = ci_prefix lower s' text.
Proof.
  revert s' text. induction s as [| c s IH]; intros [| c' s'] text; simpl;
    try discriminate; [reflexivity |].
  intros [= Hc Hs]. destruct text as [| t text]; [reflexivity |].
  unfold ci_eq. rewrite Hc. now rewrite (IH s' text Hs).
Qed.

Lemma ci_substring_fold (s s' text : pystr) :
  map lower s = map lower s' ->
  ci_substring lower s text = ci_substring lower s' text.
Proof.
  intros H. induction text as [| t text IH]; simpl;
    rewrite (ci_prefix_fold s s' _ H); [reflexivity |].
  now rewrite IH.
Qed.

Lemma ci_prefix_fold_text (s text text' : pystr) :
  map lower text = map lower text' ->
  ci_prefix lower s text = ci_prefix lower s text'.
Proof.
  revert text text'. induction s as [| c s IH]; intros [| t text] [| t' text'];
    simpl; try discriminate; try reflexivity.
  intros [= Ht Htext]. unfold ci_eq. rewrite Ht. now rewrite (IH text text' Htext).
Qed.

Lemma ci_substring_fold_text (s text text' : pystr) :
  map lower text = map lower text' ->
  ci_substring lower s text = ci_substring lower s text'.
Proof.
  revert text'. induction text as [| t text IH]; intros [| t' text']; simpl;
    try discriminate; [reflexivity |].
  intros H. rewrite (ci_prefix_fold_text s (t :: text) (t' :: text') H).
  injection H as _ H. now rewrite (IH text' H).
Qed.

End CaseFacts.

(** X6.  The search boxes ignore case on both sides.  Two selections with
    the same year and industry whose search strings are free of special
    characters and agree after case folding yield the same view; and two
    fields that agree after case folding are matched alike by such a
    string. *)
Theorem search_ignores_case (lower : N -> N) (df : dataframe)
    (y : Z) (industry company company' stock stock' : pystr)
    (Hc : no_special company = true) (Hc' : no_special company' = true)
    (Hs : no_special stock = true) (Hs' : no_special stock' = true)
    (Hcompany : map lower company = map lower company')
    (Hstock : map lower stock = map lower stock') :
  filtered_df lower df (mkSelection y industry company stock)
  = filtered_df lower df (mkSelection y industry company' stock')
  /\ forall text text',
       map lower text = map lower text' ->
       box_matches lower company text = box_matches lower company text'.
Proof.
  split.
  - rewrite !filtered_df_literal by assumption. simpl. f_equal.
    erewrite filter_ext; [| intros r; apply (ci_substring_fold lower _ _ _ Hstock)].
    f_equal.
    apply filter_ext. intros r. apply (ci_substring_fold lower _ _ _ Hcompany).
  - intros text text' Ht. unfold box_matches.
    destruct company as [| c company0]; [reflexivity |].
    rewrite (re_compile_literal _ Hc). unfold re_search.
    rewrite !search_from_literal. now apply ci_substring_fold_text.
Qed.

Lemma search_ignores_case_witness :
  filtered_df ascii_lower sample_table
    (mkSelection 2021 ALL_INDUSTRIES (codepoints "bank") (codepoints "6"))
  = filtered_df ascii_lower sample_table
      (mkSelection 2021 ALL_INDUSTRIES (codepoints "BaNK") (codepoints "6"))
  /\ forall text text',
       map ascii_lower text = map ascii_lower text' ->
       box_matches ascii_lower (codepoints "bank") text
       = box_matches ascii_lower (codepoints "bank") text'.
Proof.
  exact (search_ignores_case ascii_lower sample_table 2021 ALL_INDUSTRIES
           (codepoints "bank") (codepoints "BaNK") (codepoints "6") (codepoints "6")
           eq_refl eq_refl eq_refl eq_refl eq_refl eq_refl).
Defined.

(** ** A year taken from the selector *)

(** X7.  With a year the selector offers, '全部' as the industry and both
    boxes empty, the view is the whole year slice and has at least one
    row, so the page shows no empty-view warning. *)
Theorem offered_year_has_rows (lower : N -> N) (mean : list Q -> Q)
    (df : dataframe) (y : Z) (Hyear : In y (years df)) :
  filtered_df lower df (mkSelection y ALL_INDUSTRIES [] []) = Some (year_slice y df)
  /\ year_slice y df <> []
  /\ exists page,
       main_content lower mean df (mkSelection y ALL_INDUSTRIES [] []) = Some page
       /\ ~ In StWarning page.
Proof.
  assert (Hne : year_slice y df <> []).
  { apply years_In in Hyear. destruct Hyear as [r [Hr Hy]].
    assert (H : In r (year_slice y df))
      by (apply filter_In; split; [exact Hr | now apply Z.eqb_eq]).
    intros E. rewrite E in H. destruct H. }
  split; [reflexivity | split; [exact Hne |]].
  unfold main_content.
  change (filtered_df lower df (mkSelection y ALL_INDUSTRIES [] []))
    with (Some (year_slice y df)).
  eexists. split; [reflexivity |].
  destruct (year_slice y df) as [| r view]; [congruence |].
  unfold sidebar, report, summary, histogram, ranking, industry_comparison.
  rewrite !in_app_iff. simpl.
  destruct (2021 <? y); simpl;
    destruct (1 <? _)%nat; simpl;
    try destruct (0 <? _)%nat; simpl;
    intuition discriminate.
Qed.

Lemma offered_year_has_rows_witness :
  filtered_df ascii_lower sample_table (mkSelection 2022 ALL_INDUSTRIES [] [])
  = Some (year_slice 2022 sample_table)
  /\ year_slice 2022 sample_table <> []
  /\ exists page,
       main_content ascii_lower exact_mean sample_table
         (mkSelection 2022 ALL_INDUSTRIES [] []) = Some page
       /\ ~ In StWarning page.
Proof.
  apply (offered_year_has_rows ascii_lower exact_mean sample_table 2022).
  vm_compute. tauto.
Defined.

(** ** The maximum and minimum tiles *)

Lemma py_int_monotone (x y : Q) : (x <= y)%Q -> py_int x <= py_int y.
Proof.
  intros Hxy.
  destruct (py_int_truncates x) as [Xpos Xneg].
  destruct (py_int_truncates y) as [Ypos Yneg].
  destruct (Qlt_le_dec x 0) as [Hx | Hx].
  - destruct (Xneg (Qlt_le_weak _ _ Hx)) as [X1 X2].
    destruct (Qlt_le_dec y 0) as [Hy | Hy].
    + destruct (Yneg (Qlt_le_weak _ _ Hy)) as [Y1 Y2].
      assert (H : (inject_Z (py_int x) - 1 < inject_Z (py_int y))%Q).
      { eapply Qlt_le_trans; [exact X2 |]. now apply Qle_trans with y. }
      unfold Qlt, Qminus, Qplus, Qopp, inject_Z in H. simpl in H. lia.
    + destruct (Ypos Hy) as [Y1 Y2].
      assert (H1 : (inject_Z (py_int x) - 1 < 0)%Q)
        by (now apply Qlt_trans with x).
      assert (H2 : (0 < inject_Z (py_int y) + 1)%Q)
        by (now apply Qle_lt_trans with y).
      unfold Qlt, Qminus, Qplus, Qopp, inject_Z in H1, H2. simpl in H1, H2. lia.
  - destruct (Xpos Hx) as [X1 X2].
    destruct (Ypos (Qle_trans _ _ _ Hx Hxy)) as [Y1 Y2].
    assert (H : (inject_Z (py_int x) < inject_Z (py_int y) + 1)%Q).
    { eapply Qle_lt_trans; [exact X1 |]. now apply Qle_lt_trans with y. }
    unfold Qlt, Qplus, inject_Z in H. simpl in H. lia.
Qed.

(** X8.  For a non-empty view the maximum tile shows the truncated index
    of a row of the view that no row exceeds, the minimum tile the
    truncated index of a row that no row falls below, and the minimum tile
    never shows more than the maximum tile. *)
Theorem extreme_tiles (mean : list Q -> Q) (view : dataframe) (r0 : row)
    (rest : dataframe) (Hview : view = r0 :: rest) :
  exists hi lo,
    In hi view /\ In lo view
    /\ (forall r, In r view ->
          (col_index lo <= col_index r)%Q /\ (col_index r <= col_index hi)%Q)
    /\ In (StMetric MaxIndex (IntValue (py_int (col_index hi)))) (summary mean view)
    /\ In (StMetric MinIndex (IntValue (py_int (col_index lo)))) (summary mean view)
    /\ py_int (col_index lo) <= py_int (col_index hi).
Proof.
  subst view.
  set (x := col_index r0). set (xs := map col_index rest).
  assert (Hcol : map col_index (r0 :: rest) = x :: xs) by reflexivity.
  destruct (series_max_spec x xs) as [Min Mub].
  destruct (series_min_spec x xs) as [Lin Llb].
  rewrite <- Hcol in Min, Lin.
  apply in_map_iff in Min. destruct Min as [hi [Ehi Hhi]].
  apply in_map_iff in Lin. destruct Lin as [lo [Elo Hlo]].
  exists hi, lo. split; [exact Hhi | split; [exact Hlo |]].
  assert (Hb : forall r, In r (r0 :: rest) ->
             (col_index lo <= col_index r)%Q /\ (col_index r <= col_index hi)%Q).
  { intros r Hr. rewrite Ehi, Elo. split.
    - apply Llb. rewrite <- Hcol. now apply in_map.
    - apply Mub. rewrite <- Hcol. now apply in_map. }
  split; [exact Hb |].
  rewrite (summary_nonempty mean _ x xs Hcol), Ehi, Elo.
  split; [simpl; tauto | split; [simpl; tauto |]].
  rewrite <- Ehi, <- Elo. apply py_int_monotone. apply (Hb lo Hlo).
Qed.

Lemma extreme_tiles_witness :
  exists hi lo,
    In hi [alpha; beta; gamma] /\ In lo [alpha; beta; gamma]
    /\ (forall r, In r [alpha; beta; gamma] ->
          (col_index lo <= col_index r)%Q /\ (col_index r <= col_index hi)%Q)
    /\ In (StMetric MaxIndex (IntValue (py_int (col_index hi))))
          (summary exact_mean [alpha; beta; gamma])
    /\ In (StMetric MinIndex (IntValue (py_int (col_index lo))))
          (summary exact_mean [alpha; beta; gamma])
    /\ py_int (col_index lo) <= py_int (col_index hi).
Proof.
  exact (extreme_tiles exact_mean [alpha; beta; gamma] alpha [beta; gamma] eq_refl).
Defined.

(** X9.  When every index of a non-empty view lies between 0 and 100, as
    the column is named, both extreme tiles show an integer between 0 and
    100, each the integer part of the extreme it stands for. *)
Theorem extreme_tiles_in_range (mean : list Q -> Q) (view : dataframe)
    (x : Q) (xs : list Q)
    (Hcol : map col_index view = x :: xs)
    (Hrange : forall r, In r view -> (0 <= col_index r)%Q /\ (col_index r <= 100)%Q) :
  summary mean view
  = [StMetric CompanyCount (IntValue (Z.of_nat (length view)));
     StMetric AvgIndex (OneDecimal (mean (x :: xs)));
     StMetric MaxIndex (IntValue (py_int (series_max x xs)));
     StMetric MinIndex (IntValue (py_int (series_min x xs)))]
  /\ 0 <= py_int (series_min x xs) <= py_int (series_max x xs)
  /\ py_int (series_max x xs) <= 100
  /\ (inject_Z (py_int (series_max x xs)) <= series_max x xs)%Q
  /\ (series_max x xs < inject_Z (py_int (series_max x xs)) + 1)%Q
  /\ (inject_Z (py_int (series_min x xs)) <= series_min x xs)%Q
  /\ (series_min x xs < inject_Z (py_int (series_min x xs)) + 1)%Q.
Proof.
  destruct (series_max_spec x xs) as [Min Mub].
  destruct (series_min_spec x xs) as [Lin Llb].
  assert (Hall : forall v, In v (x :: xs) -> (0 <= v)%Q /\ (v <= 100)%Q).
  { intros v Hv. rewrite <- Hcol in Hv. apply in_map_iff in Hv.
    destruct Hv as [r [<- Hr]]. now apply Hrange. }
  destruct (Hall _ Min) as [M0 M100]. destruct (Hall _ Lin) as [L0 L100].
  split; [now apply summary_nonempty |].
  assert (Z0 : py_int 0 = 0) by reflexivity.
  assert (Z100 : py_int 100 = 100) by reflexivity.
  split; [split |].
  - rewrite <- Z0. now apply py_int_monotone.
  - apply py_int_monotone. now apply Mub.
  - split; [rewrite <- Z100; now apply py_int_monotone |].
    destruct (proj1 (py_int_truncates (series_max x xs)) M0).
    destruct (proj1 (py_int_truncates (series_min x xs)) L0).
    tauto.
Qed.

Lemma extreme_tiles_in_range_witness :
  summary exact_mean [alpha; beta; gamma]
  = [StMetric CompanyCount (IntValue 3);
     StMetric AvgIndex (OneDecimal (exact_mean [80; 90; 10]%Q));
     StMetric MaxIndex (IntValue 90);
     StMetric MinIndex (IntValue 10)]
  /\ 0 <= 10 <= 90
  /\ 90 <= 100
  /\ (inject_Z 90 <= 90)%Q
  /\ (90 < inject_Z 90 + 1)%Q
  /\ (inject_Z 10 <= 10)%Q
  /\ (10 < inject_Z 10 + 1)%Q.
Proof.
  apply (extreme_tiles_in_range exact_mean [alpha; beta; gamma] 80%Q [90; 10]%Q eq_refl).
  intros r [<- | [<- | [<- | []]]]; split; discriminate.
Defined.

(** ** Rows the ranked table leaves out *)

Lemma StronglySorted_split {B : Type} (R : B -> B -> Prop) (n : nat) (l : list B) :
  StronglySorted R l ->
  forall a b, In a (firstn n l) -> In b (skipn n l) -> R a b.
Proof.
  intros H. revert n. induction H as [| x l Hl IH Hx]; intros [| n] a b; simpl;
    try tauto.
  intros [<- | Ha] Hb.
  - rewrite Forall_forall in Hx. apply Hx.
    rewrite <- (firstn_skipn n l). apply in_or_app. now right.
  - now apply (IH n).
Qed.

(** X10.  The ranked table shows the best rows: the rows of the view fall
    into those shown and the others, there are as many others as the view
    exceeds 20 rows, and no row left out has a higher index than a row
    shown. *)
Theorem shown_rows_dominate (view : dataframe) :
  exists hidden,
    Permutation (map snd (display_df view) ++ hidden) (map project view)
    /\ length hidden = (length view - 20)%nat
    /\ forall a b, In a (map snd (display_df view)) -> In b hidden ->
         (shown_index b <= shown_index a)%Q.
Proof.
  destruct (ranked_rows view) as [Hsnd _].
  exists (skipn 20 (map project (sort_by index_desc view))).
  rewrite Hsnd. split; [| split].
  - rewrite firstn_skipn. apply Permutation_map, sort_by_perm.
  - now rewrite length_skipn, length_map, sort_by_length.
  - intros a b Ha Hb.
    exact (StronglySorted_split _ 20 _ (ranked_sorted view) a b Ha Hb).
Qed.

(** ** The shape of the industry comparison *)

Lemma StronglySorted_filter {B : Type} (R : B -> B -> Prop) (p : B -> bool) (l : list B) :
  StronglySorted R l -> StronglySorted R (filter p l).
Proof.
  induction 1 as [| x l Hl IH Hx]; simpl; [constructor |].
  destruct (p x); [| exact IH]. constructor; [exact IH |].
  rewrite Forall_forall in *. intros b Hb. apply filter_In in Hb. now apply Hx.
Qed.

Lemma NoDup_map_filter {B C : Type} (f : B -> C) (p : B -> bool) (l : list B) :
  NoDup (map f l) -> NoDup (map f (filter p l)).
Proof.
  induction l as [| x l IH]; simpl; intros H; [constructor |].
  inversion H as [| ? ? Hx Hl]; subst.
  destruct (p x); simpl; [| now apply IH].
  constructor; [| now apply IH].
  intros Hin. apply Hx. apply in_map_iff in Hin. destruct Hin as [b [E Hb]].
  apply filter_In in Hb. rewrite <- E. apply in_map. tauto.
Qed.

Lemma NoDup_firstn {B : Type} (n : nat) (l : list B) : NoDup l -> NoDup (firstn n l).
Proof.
  intros H. rewrite <- (firstn_skipn n l) in H. now apply NoDup_app_remove_r in H.
Qed.

Lemma sentinel_at_most_once (avg : list (pystr * Q)) :
  NoDup (map fst avg) -> (length avg <= S (length (non_unknown avg)))%nat.
Proof.
  induction avg as [| g avg IH]; simpl; intros H; [lia |].
  inversion H as [| ? ? Hg Havg]; subst. unfold non_unknown in *. simpl.
  destruct (pystr_eqb (fst g) UNKNOWN_INDUSTRY) eqn:E; simpl.
  - apply pystr_eqb_eq in E.
    rewrite filter_all; [lia |].
    intros g' Hg'. apply negb_true_iff.
    destruct (pystr_eqb (fst g') UNKNOWN_INDUSTRY) eqn:E'; [| reflexivity].
    apply pystr_eqb_eq in E'. exfalso. apply Hg. rewrite E, <- E'. now apply in_map.
  - specialize (IH Havg). lia.
Qed.

(** X11.  The industry comparison has two shapes only.  With fewer than
    two industry groups in the selected year it is the heading alone; with
    two or more it is the heading and one bar chart of at least one and at
    most ten bars, taken after leaving out at most one group, with pairwise
    different industry names, in descending order of the mean.
    The informational message of the last branch is never rendered. *)
Theorem industry_comparison_shapes (mean : list Q -> Q) (df : dataframe) (ui : selection) :
  let avg := industry_avg mean (year_slice (selected_year ui) df) in
  ~ In StInfo (industry_comparison mean df ui)
  /\ ((length avg < 2)%nat ->
      industry_comparison mean df ui = [StSubheader IndustryHeading])
  /\ ((2 <= length avg)%nat ->
      exists bars,
        industry_comparison mean df ui
        = [StSubheader IndustryHeading; StPlotlyChart (selected_year ui) bars]
        /\ bars = firstn 10 (non_unknown avg)
        /\ (1 <= length bars <= 10)%nat
        /\ (length avg <= S (length (non_unknown avg)))%nat
        /\ NoDup (map fst bars)
        /\ StronglySorted (fun a b => (snd b <= snd a)%Q) bars).
Proof.
  intros avg. split; [apply info_unreachable | split].
  - intros H. unfold industry_comparison. fold avg.
    now replace (1 <? length avg)%nat with false by (symmetry; apply Nat.ltb_ge; lia).
  - intros H. exists (firstn 10 (non_unknown avg)).
    assert (Hnd : NoDup (map fst avg)) by apply industry_avg_NoDup.
    assert (Hrem := non_unknown_remains avg Hnd H).
    assert (Hlen : (0 < length (non_unknown avg))%nat)
      by (destruct (non_unknown avg); [congruence | simpl; lia]).
    split; [| split; [reflexivity | split; [| split; [| split]]]].
    + unfold industry_comparison. fold avg.
      replace (1 <? length avg)%nat with true by (symmetry; apply Nat.ltb_lt; lia).
      now replace (0 <? length (non_unknown avg))%nat with true
        by (symmetry; apply Nat.ltb_lt; lia).
    + rewrite length_firstn. lia.
    + now apply sentinel_at_most_once.
    + rewrite <- firstn_map. apply NoDup_firstn. now apply NoDup_map_filter.
    + apply StronglySorted_firstn, StronglySorted_filter.
      unfold avg, industry_avg.
      eapply StronglySorted_ind with
        (P := StronglySorted (fun a b : pystr * Q => (snd b <= snd a)%Q));
        [constructor | | apply (sort_by_strongly_sorted avg_desc avg_desc_total avg_desc_trans)].
      intros a l _ IH Ha. constructor; [exact IH |].
      rewrite Forall_forall in *. intros b Hb.
      apply Qle_bool_iff. exact (Ha b Hb).
Qed.



(** ** Normalization and the loaded table *)

Section NormalizeFacts.
Variable astype_str : cell -> pystr.
Variable astype_int : cell -> option Z.

Lemma normalize_row_fields (r : raw_row) (r' : row) :
  normalize_row astype_str astype_int r = Some r' ->
  col_stock_code r' = astype_str (raw_stock_code r)
  /\ astype_int (raw_year r) = Some (col_year r')
  /\ col_company r' = raw_company r
  /\ col_industry_name r' = fillna UNKNOWN_INDUSTRY (raw_industry_name r)
  /\ col_industry_code r' = fillna UNKNOWN_CODE (raw_industry_code r)
  /\ col_index r' = raw_index r
  /\ col_total_words r' = raw_total_words r.
Proof.
  unfold normalize_row. destruct (astype_int (raw_year r)); [| discriminate].
  intros [= <-]. simpl. repeat split.
Qed.

Lemma normalize_rows (raw : list raw_row) (df : dataframe) :
  normalize astype_str astype_int raw = Some df ->
  Forall2 (fun r r' => normalize_row astype_str astype_int r = Some r') raw df.
Proof.
  revert df. induction raw as [| r raw IH]; simpl; intros df.
  - intros [= <-]. constructor.
  - destruct (normalize_row astype_str astype_int r) as [r' |] eqn:E; [| discriminate].
    destruct (normalize astype_str astype_int raw) as [rest |]; [| discriminate].
    intros [= <-]. constructor; [exact E | now apply IH].
Qed.

Lemma normalize_fails_iff (raw : list raw_row) :
  normalize astype_str astype_int raw = None
  <-> exists r, In r raw /\ astype_int (raw_year r) = None.
Proof.
  induction raw as [| r raw IH]; simpl.
  - split; [discriminate | intros [r [[] _]]].
  - unfold normalize_row at 1.
    destruct (astype_int (raw_year r)) as [y |] eqn:E.
    + destruct (normalize astype_str astype_int raw) as [rest |].
      * split; [discriminate |].
        intros [r0 [[<- | Hin] H0]]; [congruence |].
        assert (X : Some rest = None) by (apply IH; now exists r0).
        discriminate X.
      * split; [| reflexivity]. intros _.
        destruct (proj1 IH eq_refl) as [r0 [Hin H0]]. exists r0. tauto.
    + split; [| reflexivity]. intros _. exists r. tauto.
Qed.

End NormalizeFacts.

(** X13.  For a sheet with the seven columns, normalization fails exactly
    when some year cell cannot be cast to an integer.  When it succeeds
    the table has one row per sheet row, in order: company, index and word
    count are untouched, the stock code is the cell cast to a string, the
    year is the cell cast to an integer, and a missing industry name or
    code is replaced by its sentinel, so no industry field is missing
    afterwards. *)
Theorem normalize_outcome (astype_str : cell -> pystr) (astype_int : cell -> option Z)
    (raw : list raw_row) :
  (normalize astype_str astype_int raw = None
   <-> exists r, In r raw /\ astype_int (raw_year r) = None)
  /\ forall df,
       normalize astype_str astype_int raw = Some df ->
       length df = length raw
       /\ map col_company df = map raw_company raw
       /\ map col_index df = map raw_index raw
       /\ map col_total_words df = map raw_total_words raw
       /\ map col_stock_code df = map (fun r => astype_str (raw_stock_code r)) raw
       /\ map (fun r' => Some (col_year r')) df = map (fun r => astype_int (raw_year r)) raw
       /\ map col_industry_name df
          = map (fun r => match raw_industry_name r with
                          | Some name => name
                          | None => UNKNOWN_INDUSTRY
                          end) raw
       /\ map col_industry_code df
          = map (fun r => match raw_industry_code r with
                          | Some code => code
                          | None => UNKNOWN_CODE
                          end) raw.
Proof.
  split; [apply normalize_fails_iff |].
  intros df H. apply normalize_rows in H.
  induction H as [| r r' raw df Hr _ IH]; simpl.
  - repeat split.
  - destruct (normalize_row_fields _ _ _ _ Hr) as (F1 & F2 & F3 & F4 & F5 & F6 & F7).
    destruct IH as (I0 & I1 & I2 & I3 & I4 & I5 & I6 & I7).
    rewrite I0, I1, I2, I3, I4, I5, I6, I7, F1, F2, F3, F4, F5, F6, F7.
    repeat split.
Qed.

Lemma probe_loaded (fs : filesystem) (paths : list string) (p : string)
    (raw : list raw_row) :
  probe fs paths = Loaded p raw ->
  exists before after,
    paths = before ++ p :: after
    /\ Forall (fun q => path_exists fs q = false) before
    /\ path_exists fs p = true
    /\ read_excel fs p = Some raw.
Proof.
  induction paths as [| q paths IH]; simpl; [discriminate |].
  destruct (path_exists fs q) eqn:E.
  - destruct (read_excel fs q) as [raw' |] eqn:R; [| discriminate].
    intros [= <- <-]. exists [], paths. repeat split; auto.
  - intros H. destruct (IH H) as (before & after & -> & Hb & Hp & Hr).
    exists (q :: before), after. repeat split; auto.
Qed.

(** X14.  The loader returns a table only in one way: some candidate path
    exists, no candidate before it exists, reading that path and
    normalizing what was read both succeed, the table is the normalized
    sheet, and the success message naming that path is the only element
    rendered. *)
Theorem load_data_success (astype_str : cell -> pystr) (astype_int : cell -> option Z)
    (fs : filesystem) (messages : list element) (df : dataframe)
    (Hload : load_data astype_str astype_int fs = (messages, Some df)) :
  exists before p after raw,
    possible_paths = before ++ p :: after
    /\ Forall (fun q => path_exists fs q = false) before
    /\ path_exists fs p = true
    /\ read_excel fs p = Some raw
    /\ normalize astype_str astype_int raw = Some df
    /\ messages = [StSuccess p].
Proof.
  unfold load_data in Hload.
  destruct (probe fs possible_paths) as [| | p raw] eqn:P; try discriminate.
  destruct (normalize astype_str astype_int raw) as [d |] eqn:Nm; [| discriminate].
  injection Hload as <- <-.
  destruct (probe_loaded _ _ _ _ P) as (before & after & E & Hb & Hp & Hr).
  exists before, p, after, raw. repeat split; assumption.
Qed.

Lemma load_data_success_witness :
  exists before p after raw,
    possible_paths = before ++ p :: after
    /\ Forall (fun q => path_exists fs_app q = false) before
    /\ path_exists fs_app p = true
    /\ read_excel fs_app p = Some raw
    /\ normalize cast_str cast_int raw = Some sample_loaded
    /\ [StSuccess "/app/合并后的数字化转型指数数据.xlsx"] = [StSuccess p].
Proof.
  exact (load_data_success cast_str cast_int fs_app
           [StSuccess "/app/合并后的数字化转型指数数据.xlsx"] sample_loaded eq_refl).
Defined.

(** ** The industry selector *)

Lemma pystr_leb_total (a b : pystr) : pystr_leb a b = true \/ pystr_leb b a = true.
Proof.
  revert b. induction a as [| x a IH]; intros [| y b]; simpl; auto.
  destruct (N.ltb_spec x y), (N.ltb_spec y x), (N.eqb_spec x y),
    (N.eqb_spec y x); auto; lia.
Qed.

(** X15.  The industry selector offers '全部' first and then the industry
    names of the table: each name some row carries, each once, in
    ascending order. *)
Theorem industry_options (df : dataframe) (ui : selection) :
  exists names,
    In (SidebarSelectIndustry (ALL_INDUSTRIES :: names)) (sidebar df ui)
    /\ NoDup names
    /\ Sorted (fun a b => pystr_leb a b = true) names
    /\ forall name, In name names <-> exists r, In r df /\ col_industry_name r = name.
Proof.
  exists (sort_by pystr_leb (unique pystr_eqb (map col_industry_name df))).
  split; [| split; [| split]].
  - unfold sidebar. rewrite !in_app_iff. right. right. now left.
  - eapply Permutation_NoDup; [apply Permutation_sym, sort_by_perm |].
    apply unique_NoDup, pystr_eqb_eq.
  - apply sort_by_sorted, pystr_leb_total.
  - intros name. rewrite sort_by_In, (unique_In pystr_eqb pystr_eqb_eq), in_map_iff.
    split; intros [r [H1 H2]]; exists r; tauto.
Qed.

(** ** Patterns in a search box *)

Section PatternFacts.
Variable lower : N -> N.

Lemma bol_only_at_start (atoms : list atom) (text : pystr) :
  search_from lower false (Bol :: atoms) text = false.
Proof.
  induction text as [| t text IH]; simpl; [reflexivity | exact IH].
Qed.

End PatternFacts.

(** X16.  A search box is read as a pattern.  A string free of special
    characters preceded by a caret keeps exactly the fields that begin
    with the string, up to case; a lone full stop keeps exactly the fields
    that hold some character other than a line feed. *)
Theorem caret_and_dot (lower : N -> N) (s text : pystr)
    (Hs : no_special s = true) :
  box_matches lower (94%N :: s) text = ci_prefix lower s text
  /\ box_matches lower [46%N] text = existsb (fun c => negb (N.eqb c 10)) text.
Proof.
  split.
  - unfold box_matches. simpl. rewrite (re_compile_literal s Hs). simpl.
    unfold re_search. destruct text as [| t text]; simpl;
      rewrite match_here_literal; [apply orb_false_r |].
    rewrite bol_only_at_start. apply orb_false_r.
  - unfold box_matches, re_search. simpl.
    generalize true at 1. induction text as [| t text IH]; intros b; simpl;
      [reflexivity |].
    rewrite andb_true_r. f_equal. apply IH.
Qed.

Lemma caret_and_dot_witness :
  box_matches ascii_lower (94%N :: codepoints "alpha") (codepoints "Alpha Bank")
  = ci_prefix ascii_lower (codepoints "alpha") (codepoints "Alpha Bank")
  /\ box_matches ascii_lower [46%N] (codepoints "Alpha Bank")
     = existsb (fun c => negb (N.eqb c 10)) (codepoints "Alpha Bank").
Proof.
  exact (caret_and_dot ascii_lower (codepoints "alpha") (codepoints "Alpha Bank") eq_refl).
Defined.
